(** * checker.py: status resolution, content signals, WHOIS normalisation
      and recommendation scoring of the domain checker.

    The development embeds the pure core of [src/checker.py]:
    [_analyse_page_content], [lookup_whois] (with its helpers [_safe_str],
    [_safe_date], [_safe_list]), [determine_status], [score_domain] and
    [_estimate_value]; and around it [build_domain_index], [probe_http],
    [check_domain], the sort and [_build_summary] of [run_checker], and
    [main].  Network access ([requests.get], [whois.whois]) and the wall
    clock ([datetime.now()]) are inputs of the embedded functions. *)

From Stdlib Require Import Ascii String DecimalString.
From Stdlib Require Import List ZArith NArith QArith Qround Qminmax Bool Lia Lqa.
From Stdlib Require Import Permutation Sorted.
Import ListNotations.

Local Open Scope Z_scope.

(** ** Python strings

    A Python [str] is a sequence of Unicode code points; [len] counts code
    points.  A code point is an [N], a string a list of them.  Literals of
    the source are ASCII and are written [lit "..."]. *)

Definition char := N.
Definition str := list char.

Definition lit (s : string) : str :=
  map N_of_ascii (list_ascii_of_string s).
Arguments lit s%_string.

Definition chr (s : string) : char :=
  match lit s with c :: _ => c | [] => 0%N end.
Arguments chr s%_string.

Fixpoint str_eqb (a b : str) : bool :=
  match a, b with
  | [], [] => true
  | x :: a', y :: b' => N.eqb x y && str_eqb a' b'
  | _, _ => false
  end.

(** [s.startswith(p)] *)
Fixpoint startswith (p s : str) : bool :=
  match p, s with
  | [], _ => true
  | x :: p', y :: s' => N.eqb x y && startswith p' s'
  | _ :: _, [] => false
  end.

(** [s.endswith(p)] *)
Definition endswith (p s : str) : bool := startswith (rev p) (rev s).

(** [sub in s] *)
Fixpoint contains (sub s : str) : bool :=
  startswith sub s
  || match s with
     | [] => false
     | _ :: s' => contains sub s'
     end.

(** [any(w in s for w in ws)] *)
Definition any_in (ws : list str) (s : str) : bool :=
  existsb (fun w => contains w s) ws.

(** [s.replace(c, "")] for a one-character [c] *)
Definition remove_char (c : char) (s : str) : str :=
  filter (fun x => negb (N.eqb x c)) s.

(** [s.count(c)] for a one-character [c] *)
Definition count_char (c : char) (s : str) : Z :=
  Z.of_nat (length (filter (N.eqb c) s)).

(** [len(s)] *)
Definition len {A} (l : list A) : Z := Z.of_nat (length l).

(** [s.split(c)] for a one-character separator [c]; never empty. *)
Fixpoint split (c : char) (s : str) : list str :=
  match s with
  | [] => [[]]
  | x :: s' =>
      if N.eqb x c then [] :: split c s'
      else match split c s' with
           | p :: ps => (x :: p) :: ps
           | [] => [[x]]
           end
  end.

(** [sep.join(parts)] *)
Fixpoint join (sep : str) (parts : list str) : str :=
  match parts with
  | [] => []
  | [p] => p
  | p :: ps => p ++ sep ++ join sep ps
  end.

(** [str(n)] for an integer [n] *)
Definition str_of_Z (n : Z) : str := lit (NilZero.string_of_int (Z.to_int n)).

(** Truthiness of an optional string: [None] and [""] are falsy. *)
Definition truthy (o : option str) : bool :=
  match o with
  | Some (_ :: _) => true
  | _ => false
  end.

(** ** Date and time values

    A [datetime] is either naive or timezone-aware; the number is its
    position on the time line in microseconds.  [datetime.now()] is naive,
    and comparing or subtracting a naive and an aware value raises
    [TypeError]. *)

Inductive datetime :=
| Naive (us : Z)
| Aware (us : Z) (utcoffset : Z).

Definition us_per_day : Z := 86400 * 1000000.

(** [(now - t).days]: timedelta normalises with a floor division. *)
Definition days_between (now t : Z) : Z := (now - t) / us_per_day.

(** ** Values of the duck-typed WHOIS response

    A field of the raw response is [None], a string, a [datetime], some
    other object, or a list of such values. *)

Inductive scalar :=
| SNone
| SStr (s : str)
| SDatetime (d : datetime)
| SOther (tag : N).

Inductive pyval :=
| PScalar (x : scalar)
| PList (l : list scalar).

Definition scalar_truthy (x : scalar) : bool :=
  match x with
  | SNone => false
  | SStr [] => false
  | _ => true
  end.

(** Truthiness of a Python value. *)
Definition pytruthy (v : pyval) : bool :=
  match v with
  | PScalar x => scalar_truthy x
  | PList [] => false
  | PList (_ :: _) => true
  end.

(** [a or b] *)
Definition py_or (a b : pyval) : pyval := if pytruthy a then a else b.

(** ** The Python runtime

    Operations of the interpreter and of its standard library which the
    source calls and does not define.  The laws fix what the source relies
    on: the behaviour on ASCII text, on which Unicode case mapping and
    digit classification are the ASCII ones, and that lowercasing never
    empties a string. *)

Definition is_ascii (c : char) : bool := (c <? 128)%N.

Definition ascii_lower_char (c : char) : char :=
  if ((65 <=? c) && (c <=? 90))%N then (c + 32)%N else c.

Definition ascii_isdigit (c : char) : bool := ((48 <=? c) && (c <=? 57))%N.

Class PyRuntime := {
  (** [s.lower()] *)
  lower : str -> str;
  (** [c.isdigit()] *)
  isdigit : char -> bool;
  (** [datetime.fromisoformat(s)]; [None] stands for [ValueError] *)
  fromisoformat : str -> option datetime;
  (** [d.date().isoformat()] *)
  date_isoformat : datetime -> str;
  (** [str(x)] on a value that is not a string *)
  repr : scalar -> str;
  lower_ascii : forall s, forallb is_ascii s = true ->
                          lower s = map ascii_lower_char s;
  lower_nonempty : forall s, s <> [] -> lower s <> [];
  isdigit_ascii : forall c, is_ascii c = true -> isdigit c = ascii_isdigit c
}.

(** [str(x)] *)
Definition py_str `{PyRuntime} (x : scalar) : str :=
  match x with
  | SStr s => s
  | _ => repr x
  end.

(** ** Constants of the module *)

Definition PARKED_KEYWORDS : list str :=
  [ lit "buy this domain";
    lit "this domain is for sale";
    lit "domain is for sale";
    lit "domain may be for sale";
    lit "parked free";
    lit "parked by";
    lit "parked domain";
    lit "domain parking";
    lit "this webpage was generated";
    lit "is available for purchase";
    lit "make an offer";
    lit "purchase this domain";
    lit "acquire this domain";
    lit "domain for sale";
    lit "this domain name";
    lit "get this domain" ].

Definition SALE_PLATFORMS : list str :=
  [ lit "godaddy"; lit "sedo"; lit "afternic"; lit "dan.com";
    lit "hugedomains"; lit "namecheap"; lit "flippa"; lit "squadhelp";
    lit "brandpa"; lit "atom.com"; lit "undeveloped"; lit "domainagents";
    lit "buy.it"; lit "bodis" ].

Definition KNOWN_ACTIVE_DOMAINS : list str :=
  [ lit "ebay.com"; lit "baidu.com"; lit "washingtonpost.com";
    lit "snap.com"; lit "about.com"; lit "realplayer.com" ].

Definition HIGH_VALUE_KEYWORDS : list str :=
  [ lit "tech"; lit "ai"; lit "cloud"; lit "data"; lit "cyber"; lit "net";
    lit "web"; lit "app"; lit "code";
    lit "dev"; lit "digital"; lit "smart"; lit "auto"; lit "pay"; lit "fin";
    lit "bank"; lit "cash"; lit "money";
    lit "crypto"; lit "trade"; lit "invest"; lit "fund"; lit "loan";
    lit "credit"; lit "insurance";
    lit "social"; lit "chat"; lit "meet"; lit "link"; lit "share";
    lit "connect"; lit "hub"; lit "live";
    lit "stream"; lit "video"; lit "media"; lit "news"; lit "health";
    lit "med"; lit "care"; lit "fit";
    lit "shop"; lit "store"; lit "buy"; lit "deal"; lit "market"; lit "sale";
    lit "game"; lit "play"; lit "bet"; lit "win"; lit "sport";
    lit "travel"; lit "trip"; lit "fly"; lit "hotel"; lit "book";
    lit "food"; lit "eat"; lit "cook"; lit "recipe";
    lit "learn"; lit "edu"; lit "study"; lit "course"; lit "tutor";
    lit "job"; lit "hire"; lit "work"; lit "career"; lit "talent";
    lit "home"; lit "house"; lit "real"; lit "rent"; lit "property" ].

(** [x in s] for a set of strings *)
Definition in_set (x : str) (s : list str) : bool := existsb (str_eqb x) s.

(** ** HTTP probe results *)

Record ProbeResult := {
  http_status_code : option Z;
  page_title : option str;
  body_text : str;
  redirect_url : option str;
  is_parked : bool;
  is_for_sale : bool;
  sale_platform : option str;
  final_url : option str;
  error : option str
}.

(** The dictionary [probe_http] starts from. *)
Definition initial_result : ProbeResult :=
  {| http_status_code := None; page_title := None; body_text := [];
     redirect_url := None; is_parked := false; is_for_sale := false;
     sale_platform := None; final_url := None; error := None |}.

Definition set_is_parked (b : bool) (r : ProbeResult) : ProbeResult :=
  {| http_status_code := http_status_code r; page_title := page_title r;
     body_text := body_text r; redirect_url := redirect_url r;
     is_parked := b; is_for_sale := is_for_sale r;
     sale_platform := sale_platform r; final_url := final_url r;
     error := error r |}.

Definition set_is_for_sale (b : bool) (r : ProbeResult) : ProbeResult :=
  {| http_status_code := http_status_code r; page_title := page_title r;
     body_text := body_text r; redirect_url := redirect_url r;
     is_parked := is_parked r; is_for_sale := b;
     sale_platform := sale_platform r; final_url := final_url r;
     error := error r |}.

Definition set_sale_platform (p : option str) (r : ProbeResult) : ProbeResult :=
  {| http_status_code := http_status_code r; page_title := page_title r;
     body_text := body_text r; redirect_url := redirect_url r;
     is_parked := is_parked r; is_for_sale := is_for_sale r;
     sale_platform := p; final_url := final_url r;
     error := error r |}.

(** [o or ""] *)
Definition or_empty (o : option str) : str :=
  match o with Some s => s | None => [] end.

Definition nonempty {A} (l : list A) : bool :=
  match l with [] => false | _ :: _ => true end.

(** ** Content signal analysis *)

Definition title_words : list str :=
  [ lit "domain"; lit "parked"; lit "for sale"; lit "coming soon" ].

Definition sale_phrases : list str :=
  [ lit "buy this domain"; lit "purchase this domain";
    lit "make an offer on this domain"; lit "acquire this domain";
    lit "this domain is for sale"; lit "domain is available for purchase";
    lit "domain may be for sale" ].

(** [len(body_text.replace(" ", ""))] *)
Definition stripped_len (body : str) : Z := len (remove_char (chr " ") body).

(** The guard [is_real_site] of [_analyse_page_content]. *)
Definition is_real_site `{PyRuntime} (result : ProbeResult) (body : str) : bool :=
  let title := lower (or_empty (page_title result)) in
  (5000 <? stripped_len body)
  && nonempty title
  && negb (any_in title_words title).

(** [_analyse_page_content]; the dictionary it mutates is threaded through
    and returned. *)
Definition _analyse_page_content `{PyRuntime}
    (result : ProbeResult) (body : str) (raw_html : str) : ProbeResult :=
  let is_thin_page := stripped_len body <? 2000 in
  if is_real_site result body then result
  else
    (* parked keyword detection *)
    let parked_hits :=
      len (filter (fun kw => contains kw body) PARKED_KEYWORDS) in
    let result :=
      if (2 <=? parked_hits) || ((1 <=? parked_hits) && is_thin_page)
      then set_is_parked true result else result in
    (* sale platform detection *)
    let platform_found := find (fun p => contains p body) SALE_PLATFORMS in
    let result :=
      if truthy platform_found && is_thin_page
      then set_sale_platform platform_found (set_is_for_sale true result)
      else result in
    (* explicit for-sale phrases *)
    let result :=
      if any_in sale_phrases body then set_is_for_sale true result
      else result in
    (* if for-sale, also mark as parked *)
    let result :=
      if is_for_sale result then set_is_parked true result else result in
    (* minimal placeholder pages *)
    if (stripped_len body <? 150) && truthy (page_title result)
    then
      let title_lower := lower (or_empty (page_title result)) in
      if any_in [ lit "parked"; lit "for sale"; lit "domain";
                  lit "coming soon" ] title_lower
      then set_is_parked true result else result
    else result.

(** ** WHOIS lookup *)

Record WhoisRecord := {
  registrar : option str;
  creation_date : option str;
  expiration_date : option str;
  name_servers : list str;
  registrant : option str;
  registrant_email : scalar
}.

(** The dictionary [lookup_whois] starts from: every field absent. *)
Definition empty_info : WhoisRecord :=
  {| registrar := None; creation_date := None; expiration_date := None;
     name_servers := []; registrant := None; registrant_email := SNone |}.

(** [_safe_str] *)
Definition _safe_str `{PyRuntime} (value : pyval) : option str :=
  match value with
  | PScalar SNone => None
  | PList l => match l with x :: _ => Some (py_str x) | [] => None end
  | PScalar x => Some (py_str x)
  end.

(** [_safe_date] *)
Definition _safe_date `{PyRuntime} (value : pyval) : option str :=
  match value with
  | PScalar SNone => None
  | _ =>
      let value :=
        match value with
        | PList l => match l with x :: _ => x | [] => SNone end
        | PScalar x => x
        end in
      match value with
      | SNone => None
      | SDatetime d => Some (date_isoformat d)
      | x => Some (py_str x)
      end
  end.

(** [_safe_list] *)
Definition _safe_list `{PyRuntime} (value : pyval) : list str :=
  match value with
  | PScalar SNone => []
  | PScalar (SStr s) => [s]
  | PList l => map (fun v => lower (py_str v)) l
  | PScalar x => [py_str x]
  end.

(** The response object of [whois.whois]: a dictionary whose entries are
    read as attributes, absent ones reading as [None]. *)
Definition whois_entry := list (string * pyval).

(** [getattr(w, name, None)] *)
Fixpoint getattr (w : whois_entry) (name : string) : pyval :=
  match w with
  | [] => PScalar SNone
  | (k, v) :: w' => if String.eqb k name then v else getattr w' name
  end.

(** Exceptions derived from [Exception] that the lookup can raise:
    [whois.parser.PywhoisError] when the registry has no record, and any
    other failure. *)
Inductive exn :=
| PywhoisError (msg : str)
| OtherException (msg : str).

Inductive outcome (A : Type) :=
| Return (a : A)
| Raise (e : exn).
Arguments Return {A} a.
Arguments Raise {A} e.

(** Computations that mutate the [info] dictionary and may raise; what was
    written before an exception stays written. *)
Definition M (A : Type) : Type := WhoisRecord -> outcome A * WhoisRecord.

Definition ret {A} (a : A) : M A := fun info => (Return a, info).

Definition bind {A B} (m : M A) (k : A -> M B) : M B :=
  fun info =>
    match m info with
    | (Return a, info') => k a info'
    | (Raise e, info') => (Raise e, info')
    end.

Notation "x <- m ;; k" := (bind m (fun x => k))
  (at level 61, m at next level, right associativity).
Notation "m ;;; k" := (bind m (fun _ => k))
  (at level 61, right associativity).

(** A call into the WHOIS library. *)
Definition call {A} (o : outcome A) : M A := fun info => (o, info).

(** [info[field] = value], one per field. *)
Definition set_registrar (v : option str) : M unit := fun i =>
  (Return tt,
   {| registrar := v; creation_date := creation_date i;
      expiration_date := expiration_date i; name_servers := name_servers i;
      registrant := registrant i; registrant_email := registrant_email i |}).

Definition set_creation_date (v : option str) : M unit := fun i =>
  (Return tt,
   {| registrar := registrar i; creation_date := v;
      expiration_date := expiration_date i; name_servers := name_servers i;
      registrant := registrant i; registrant_email := registrant_email i |}).

Definition set_expiration_date (v : option str) : M unit := fun i =>
  (Return tt,
   {| registrar := registrar i; creation_date := creation_date i;
      expiration_date := v; name_servers := name_servers i;
      registrant := registrant i; registrant_email := registrant_email i |}).

Definition set_name_servers (v : list str) : M unit := fun i =>
  (Return tt,
   {| registrar := registrar i; creation_date := creation_date i;
      expiration_date := expiration_date i; name_servers := v;
      registrant := registrant i; registrant_email := registrant_email i |}).

Definition set_registrant (v : option str) : M unit := fun i =>
  (Return tt,
   {| registrar := registrar i; creation_date := creation_date i;
      expiration_date := expiration_date i; name_servers := name_servers i;
      registrant := v; registrant_email := registrant_email i |}).

Definition set_registrant_email (v : scalar) : M unit := fun i =>
  (Return tt,
   {| registrar := registrar i; creation_date := creation_date i;
      expiration_date := expiration_date i; name_servers := name_servers i;
      registrant := registrant i; registrant_email := v |}).

(** [try: body except PywhoisError: pass except Exception as exc: log]:
    both handlers swallow the exception; the debug log line is not part of
    the state. *)
Definition try_except (body : M unit) : M unit :=
  fun info =>
    match body info with
    | (Return tt, info') => (Return tt, info')
    | (Raise (PywhoisError _), info') => (Return tt, info')
    | (Raise (OtherException _), info') => (Return tt, info')
    end.

Definition scalar_of_option (o : option str) : scalar :=
  match o with Some s => SStr s | None => SNone end.

(** The body of the [try] block of [lookup_whois].  The early
    [return info] on an empty response leaves the block with [info] as it
    is, which is what the function returns after the block too. *)
Definition lookup_whois_body `{PyRuntime}
    (whois_query : str -> outcome (option whois_entry)) (domain : str) : M unit :=
  w <- call (whois_query domain) ;;
  match w with
  | None => ret tt
  | Some [] => ret tt
  | Some w =>
      set_registrar (_safe_str (getattr w "registrar")) ;;;
      set_creation_date (_safe_date (getattr w "creation_date")) ;;;
      set_expiration_date (_safe_date (getattr w "expiration_date")) ;;;
      set_name_servers (_safe_list (getattr w "name_servers")) ;;;
      let registrant :=
        py_or (getattr w "org")
              (py_or (getattr w "name") (getattr w "registrant_name")) in
      set_registrant (_safe_str registrant) ;;;
      let email :=
        py_or (getattr w "emails") (getattr w "registrant_email") in
      match email with
      | PList l =>
          set_registrant_email (match l with x :: _ => x | [] => SNone end)
      | _ => set_registrant_email (scalar_of_option (_safe_str email))
      end
  end.

(** [lookup_whois]: the outcome is what the caller observes, a returned
    dictionary or a propagated exception. *)
Definition lookup_whois `{PyRuntime}
    (whois_query : str -> outcome (option whois_entry)) (domain : str)
    : outcome WhoisRecord :=
  match try_except (lookup_whois_body whois_query domain) empty_info with
  | (Return tt, info) => Return info
  | (Raise e, _) => Raise e
  end.

(** ** Domain status determination *)

(** [h in range(200, 400)] *)
Definition in_range (lo hi : Z) (x : Z) : bool := (lo <=? x) && (x <? hi).

(** The [try] block on the expiration date: [Some v] when it returns [v],
    [None] when it falls through ([ValueError] from the parser, [TypeError]
    from comparing an aware date with the naive [now], or no branch
    taken). *)
Definition expiration_verdict `{PyRuntime}
    (now : Z) (has_http : bool) (expiration : str) : option str :=
  match fromisoformat expiration with
  | Some (Naive exp_date) =>
      if exp_date <? now then Some (lit "expired")
      else if negb has_http then Some (lit "parked")
      else None
  | Some (Aware _ _) => None
  | None => None
  end.

(** [determine_status]; [now] is the value [datetime.now()] reads. *)
Definition determine_status `{PyRuntime} (now : Z)
    (http_result : ProbeResult) (whois_info : WhoisRecord) (domain : str)
    : str :=
  if in_set domain KNOWN_ACTIVE_DOMAINS then lit "active"
  else
    let has_http :=
      match http_status_code http_result with Some _ => true | None => false end in
    if truthy (redirect_url http_result) then lit "redirect"
    else if is_for_sale http_result then lit "for_sale"
    else if is_parked http_result then lit "parked"
    else if has_http
            && match http_status_code http_result with
               | Some c => in_range 200 400 c
               | None => false
               end
    then lit "active"
    else
      let has_whois :=
        truthy (registrar whois_info)
        || truthy (creation_date whois_info)
        || truthy (expiration_date whois_info)
        || nonempty (name_servers whois_info) in
      let expiration := expiration_date whois_info in
      match (if truthy expiration
             then expiration_verdict now has_http (or_empty expiration)
             else None) with
      | Some v => v
      | None =>
          if negb has_whois && negb has_http then lit "available"
          else if negb has_http && has_whois then lit "expired"
          else lit "active"
      end.

(** WHOIS has an expiration date that parses to a naive datetime in the
    past.  A date that does not parse, and one that carries a time zone
    (comparing it with the naive [now] raises [TypeError], which the source
    swallows), do not count. *)
Definition whois_expired `{PyRuntime} (now : Z) (whois_info : WhoisRecord)
    : bool :=
  truthy (expiration_date whois_info)
  && match fromisoformat (or_empty (expiration_date whois_info)) with
     | Some (Naive exp_date) => exp_date <? now
     | _ => false
     end.

(** The expiration date when WHOIS has one that is usable: it parses and
    can be compared with the current time. *)
Definition usable_expiration `{PyRuntime} (whois_info : WhoisRecord)
    : option Z :=
  if truthy (expiration_date whois_info) then
    match fromisoformat (or_empty (expiration_date whois_info)) with
    | Some (Naive exp_date) => Some exp_date
    | _ => None
    end
  else None.

(** Some WHOIS signal is present: registrar, creation date, expiration
    date or nameservers. *)
Definition whois_signal (whois_info : WhoisRecord) : bool :=
  truthy (registrar whois_info)
  || truthy (creation_date whois_info)
  || truthy (expiration_date whois_info)
  || nonempty (name_servers whois_info).

(** An ordered decision table: the verdict of the first rule whose
    condition holds, the fallback when none does. *)
Definition first_match (rules : list (bool * str)) (fallback : str) : str :=
  match find fst rules with
  | Some (_, verdict) => verdict
  | None => fallback
  end.

(** The rules of the status resolver as a table, in the order of the
    specification.  Rule 6 is as the source has it, without the condition
    that no HTTP status is present, and rule 7 covers every date that is
    not in the past. *)
Definition status_rules `{PyRuntime} (now : Z) (http_result : ProbeResult)
    (whois_info : WhoisRecord) (domain : str) : list (bool * str) :=
  let no_http :=
    match http_status_code http_result with Some _ => false | None => true end in
  let exp := usable_expiration whois_info in
  [ (in_set domain KNOWN_ACTIVE_DOMAINS, lit "active");
    (truthy (redirect_url http_result), lit "redirect");
    (is_for_sale http_result, lit "for_sale");
    (is_parked http_result, lit "parked");
    (match http_status_code http_result with
     | Some c => in_range 200 400 c
     | None => false
     end, lit "active");
    (match exp with Some e => e <? now | None => false end, lit "expired");
    (no_http && match exp with Some e => negb (e <? now) | None => false end,
     lit "parked");
    (no_http && negb (whois_signal whois_info), lit "available");
    (no_http && whois_signal whois_info
     && match exp with Some _ => false | None => true end, lit "expired") ].

(** ** Recommendation scoring

    The score is a float built from the literals 5.0, 2.0, 1.5, 1.0 and
    0.5 by a dozen additions and subtractions, all exact in binary floating
    point, so it is a rational here.  The age is [days / 365.25] and is
    compared with 20, 10 and 5; the vowel ratio is a quotient of two small
    integers compared with 0.2 and 0.6; on these the rounded float quotient
    and the exact rational compare alike. *)

Local Open Scope Q_scope.

(** [round(x)] of a float: to the nearest integer, ties to the even one. *)
Definition py_round (x : Q) : Z :=
  let f := Qfloor x in
  let r := x - inject_Z f in
  match Qcompare r (1 # 2) with
  | Lt => f
  | Gt => (f + 1)%Z
  | Eq => if Z.even f then f else (f + 1)%Z
  end.

(** [int(x)] of a float: towards zero. *)
Definition py_int (x : Q) : Z :=
  if Qle_bool 0 x then Qfloor x else Qceiling x.

Definition Qleb (a b : Q) : bool := Qle_bool a b.

(** The running [score] and [reasons] of [score_domain]. *)
Definition tally : Type := Q * list str.

(** [score += d; reasons.append(reason)] *)
Definition bump (d : Q) (reason : str) (t : tally) : tally :=
  (fst t + d, snd t ++ [reason]).

(** [reasons.append(reason)] *)
Definition note (reason : str) (t : tally) : tally :=
  (fst t, snd t ++ [reason]).

(** [_estimate_value] *)
Definition ranges : list (Z * str) :=
  [ (1%Z, lit "$0-$100");
    (2%Z, lit "$100-$500");
    (3%Z, lit "$500-$1,000");
    (4%Z, lit "$1,000-$2,500");
    (5%Z, lit "$2,500-$5,000");
    (6%Z, lit "$5,000-$10,000");
    (7%Z, lit "$10,000-$25,000");
    (8%Z, lit "$25,000-$50,000");
    (9%Z, lit "$50,000-$100,000");
    (10%Z, lit "$100,000+") ].

(** [d.get(k, default)] *)
Fixpoint dict_get (d : list (Z * str)) (k : Z) (default : str) : str :=
  match d with
  | [] => default
  | (k', v) :: d' => if Z.eqb k' k then v else dict_get d' k default
  end.

Definition _estimate_value (score : Z) (age_years : Q) (name_len : Z)
    (status : str) : str :=
  if str_eqb status (lit "available") then lit "$10-$15 (registration cost)"
  else dict_get ranges score (lit "$1,000-$5,000").

Record Recommendation := {
  score : Z;
  reason : str;
  estimated_value : str
}.

(** [(datetime.now() - creation).days / 365.25] *)
Definition age_years (now creation : Z) : Q :=
  inject_Z (days_between now creation) / (36525 # 100).

(** The age block: the age in years and the updated tally.  A creation
    date that does not parse ([ValueError]) or is timezone-aware
    ([TypeError] on the subtraction) leaves both as they were. *)
Definition age_block `{PyRuntime} (now : Z) (whois_info : WhoisRecord)
    (t : tally) : Q * tally :=
  let creation_date_str := creation_date whois_info in
  if truthy creation_date_str then
    match fromisoformat (or_empty creation_date_str) with
    | Some (Naive creation) =>
        let domain_age_years := age_years now creation in
        let years := str_of_Z (py_int domain_age_years) in
        (domain_age_years,
         if Qleb 20 domain_age_years then
           bump 2 (lit "Very old domain (" ++ years ++ lit " years)") t
         else if Qleb 10 domain_age_years then
           bump (3 # 2)
                (lit "Established domain (" ++ years ++ lit " years)") t
         else if Qleb 5 domain_age_years then
           bump (1 # 2) (lit "Moderate age (" ++ years ++ lit " years)") t
         else t)
    | _ => (0, t)
    end
  else (0, t).

Definition length_block (name_len : Z) (t : tally) : tally :=
  if (name_len <=? 3)%Z then
    bump 2 (lit "Ultra-short name (" ++ str_of_Z name_len ++ lit " chars)") t
  else if (name_len <=? 5)%Z then
    bump (3 # 2)
         (lit "Short name (" ++ str_of_Z name_len ++ lit " chars)") t
  else if (name_len <=? 8)%Z then bump (1 # 2) (lit "Concise name") t
  else if (15 <=? name_len)%Z then
    bump (- (1)) (lit "Long name reduces memorability") t
  else t.

Definition tld_block (domain : str) (t : tally) : tally :=
  if endswith (lit ".com") domain then bump 1 (lit ".com TLD premium") t
  else if existsb (fun suf => endswith suf domain)
                  [ lit ".io"; lit ".ai"; lit ".co" ]
  then bump (1 # 2)
            (lit "Desirable TLD (" ++ last (split (chr ".") domain) []
               ++ lit ")") t
  else t.

Definition popularity_block (years_popular : list Z) (t : tally) : tally :=
  let year_count := len years_popular in
  let r := lit "Appeared in " ++ str_of_Z year_count
             ++ lit " years of top lists" in
  if (5 <=? year_count)%Z then bump (3 # 2) r t
  else if (3 <=? year_count)%Z then bump 1 r t
  else if (2 <=? year_count)%Z then bump (1 # 2) r t
  else t.

Definition keyword_block (name_lower : str) (t : tally) : tally :=
  let matched_keywords :=
    filter (fun kw => contains kw name_lower) HIGH_VALUE_KEYWORDS in
  if nonempty matched_keywords then
    let keyword_bonus :=
      Qmin (inject_Z (len matched_keywords) * (1 # 2)) (3 # 2) in
    bump keyword_bonus
         (lit "High-value keywords: "
            ++ join (lit ", ") (firstn 3 matched_keywords)) t
  else t.

Definition brandability_block `{PyRuntime} (name_lower : str) (t : tally)
    : tally :=
  let vowel_ratio :=
    inject_Z (len (filter (fun c => contains [c] (lit "aeiou")) name_lower))
    / inject_Z (Z.max (len name_lower) 1) in
  let hyphen_count := count_char (chr "-") name_lower in
  let digit_count := len (filter isdigit name_lower) in
  if Qleb (2 # 10) vowel_ratio && Qleb vowel_ratio (6 # 10)
     && (hyphen_count =? 0)%Z && (digit_count =? 0)%Z
  then bump (1 # 2) (lit "Good brandability (pronounceable, clean)") t
  else if (2 <=? hyphen_count)%Z || (3 <=? digit_count)%Z
  then bump (- (1 # 2)) (lit "Low brandability (hyphens/digits)") t
  else t.

Definition status_block (status : str) (t : tally) : tally :=
  if str_eqb status (lit "available") then
    bump (1 # 2) (lit "Potentially available for registration") t
  else if str_eqb status (lit "for_sale") then
    note (lit "Listed for sale -- acquisition possible") t
  else if str_eqb status (lit "active") then
    bump (- (1 # 2)) (lit "Currently active -- acquisition unlikely") t
  else t.

(** The score and reasons before rounding and clamping, with the age and
    the name length that [_estimate_value] receives. *)
Definition raw_score `{PyRuntime} (now : Z) (domain : str)
    (years_popular : list Z) (status : str) (whois_info : WhoisRecord)
    : Q * Z * tally :=
  let t : tally := (5, []) in
  let '(domain_age_years, t) := age_block now whois_info t in
  let name_part := hd [] (split (chr ".") domain) in
  let name_len := len name_part in
  let t := length_block name_len t in
  let t := tld_block domain t in
  let t := popularity_block years_popular t in
  let name_lower := lower name_part in
  let t := keyword_block name_lower t in
  let t := brandability_block name_lower t in
  let t := status_block status t in
  (domain_age_years, name_len, t).

(** [score_domain]; [now] is the value [datetime.now()] reads. *)
Definition score_domain `{PyRuntime} (now : Z) (domain : str)
    (years_popular : list Z) (status : str) (whois_info : WhoisRecord)
    : Recommendation :=
  let '(domain_age_years, name_len, (score, reasons)) :=
    raw_score now domain years_popular status whois_info in
  let final_score := Z.max 1 (Z.min 10 (py_round score)) in
  let estimated_value :=
    _estimate_value final_score domain_age_years name_len status in
  let reasons :=
    if nonempty reasons then reasons else reasons ++ [lit "Standard domain"] in
  {| score := final_score;
     reason := join (lit "; ") reasons;
     estimated_value := estimated_value |}.

Local Close Scope Q_scope.

(** ** A concrete runtime

    [ascii_runtime] computes: it is used to evaluate the functions on
    concrete inputs.  Case mapping and digit classification are the ASCII
    ones (other code points are left alone and are no digits), and the date
    parser reads the calendar-date form [YYYY-MM-DD], the one [_safe_date]
    writes.  Time is counted in microseconds from 0001-01-01 00:00:00. *)

Module Calendar.

Definition is_leap (y : Z) : bool :=
  ((y mod 4 =? 0) && negb (y mod 100 =? 0)) || (y mod 400 =? 0).

Definition days_in_month (y m : Z) : Z :=
  if m =? 2 then (if is_leap y then 29 else 28)
  else if (m =? 4) || (m =? 6) || (m =? 9) || (m =? 11) then 30
  else 31.

Definition days_before_year (y : Z) : Z :=
  let p := y - 1 in p * 365 + p / 4 - p / 100 + p / 400.

Fixpoint days_before_month_aux (y : Z) (k : nat) : Z :=
  match k with
  | O => 0
  | S k' => days_before_month_aux y k' + days_in_month y (Z.of_nat k)
  end.

(** Days in the months before month [m] of year [y]. *)
Definition days_before_month (y m : Z) : Z :=
  days_before_month_aux y (Z.to_nat (m - 1)).

(** Days from 0001-01-01 to the given date. *)
Definition days_from_civil (y m d : Z) : Z :=
  days_before_year y + days_before_month y m + (d - 1).

Definition valid_date (y m d : Z) : bool :=
  (1 <=? y) && (y <=? 9999) && (1 <=? m) && (m <=? 12)
  && (1 <=? d) && (d <=? days_in_month y m).

(** The year of day number [n]: the last year that starts on or before
    it, searched downwards from an upper estimate. *)
Fixpoint year_search (n : Z) (y : Z) (fuel : nat) : Z :=
  match fuel with
  | O => y
  | S fuel' =>
      if days_before_year y <=? n then y else year_search n (y - 1) fuel'
  end.

Definition year_of_day (n : Z) : Z := year_search n (n / 365 + 1) 16%nat.

Fixpoint month_search (y : Z) (rest : Z) (m : Z) (fuel : nat) : Z * Z :=
  match fuel with
  | O => (m, rest + 1)
  | S fuel' =>
      if rest <? days_in_month y m then (m, rest + 1)
      else month_search y (rest - days_in_month y m) (m + 1) fuel'
  end.

(** Year, month and day of day number [n]. *)
Definition civil_from_days (n : Z) : Z * Z * Z :=
  let y := year_of_day n in
  let '(m, d) := month_search y (n - days_before_year y) 1 11%nat in
  (y, m, d).

End Calendar.

Definition digit_value (c : char) : option Z :=
  if ascii_isdigit c then Some (Z.of_N c - 48) else None.

(** The number written by a string of ASCII digits. *)
Fixpoint digits_value (acc : Z) (s : str) : option Z :=
  match s with
  | [] => Some acc
  | c :: s' =>
      match digit_value c with
      | Some v => digits_value (acc * 10 + v) s'
      | None => None
      end
  end.

Definition parse_ymd (s : str) : option datetime :=
  match s with
  | [y1; y2; y3; y4; h1; m1; m2; h2; d1; d2] =>
      if N.eqb h1 (chr "-") && N.eqb h2 (chr "-") then
        match digits_value 0 [y1; y2; y3; y4],
              digits_value 0 [m1; m2],
              digits_value 0 [d1; d2] with
        | Some y, Some m, Some d =>
            if Calendar.valid_date y m d
            then Some (Naive (Calendar.days_from_civil y m d * us_per_day))
            else None
        | _, _, _ => None
        end
      else None
  | _ => None
  end.

(** [n] in decimal, padded with zeros to [width] digits. *)
Definition zero_pad (width : nat) (n : Z) : str :=
  let s := str_of_Z n in
  repeat (chr "0") (width - length s) ++ s.

Definition wall_clock (d : datetime) : Z :=
  match d with Naive us => us | Aware us _ => us end.

Definition format_date (d : datetime) : str :=
  let '(y, m, dd) := Calendar.civil_from_days (wall_clock d / us_per_day) in
  zero_pad 4 y ++ lit "-" ++ zero_pad 2 m ++ lit "-" ++ zero_pad 2 dd.

(** [HH:MM:SS], with [.ffffff] when the microseconds are not zero. *)
Definition format_clock (us : Z) : str :=
  let s := us / 1000000 in
  let f := us mod 1000000 in
  zero_pad 2 (s / 3600) ++ lit ":" ++ zero_pad 2 (s / 60 mod 60)
    ++ lit ":" ++ zero_pad 2 (s mod 60)
    ++ (if f =? 0 then [] else lit "." ++ zero_pad 6 f).

(** [+HH:MM] of a UTC offset, with seconds and microseconds only when they
    are not zero. *)
Definition format_offset (off : Z) : str :=
  let a := Z.abs off in
  let s := a / 1000000 in
  let f := a mod 1000000 in
  (if off <? 0 then lit "-" else lit "+")
    ++ zero_pad 2 (s / 3600) ++ lit ":" ++ zero_pad 2 (s / 60 mod 60)
    ++ (if (s mod 60 =? 0) && (f =? 0) then []
        else lit ":" ++ zero_pad 2 (s mod 60)
               ++ (if f =? 0 then [] else lit "." ++ zero_pad 6 f)).

(** [str(d)] of a datetime *)
Definition format_datetime (d : datetime) : str :=
  format_date d ++ lit " " ++ format_clock (wall_clock d mod us_per_day)
    ++ match d with
       | Naive _ => []
       | Aware _ off => format_offset off
       end.

Definition ascii_repr (x : scalar) : str :=
  match x with
  | SNone => lit "None"
  | SStr s => s
  | SDatetime d => format_datetime d
  | SOther _ => lit "<object>"
  end.

Definition ascii_lower_nonempty (s : str)
    : s <> [] -> map ascii_lower_char s <> [] :=
  match s with
  | [] => fun H _ => H eq_refl
  | c :: s' => fun _ E =>
      eq_ind (ascii_lower_char c :: map ascii_lower_char s')
             (fun l => match l with [] => False | _ :: _ => True end) I [] E
  end.

Definition ascii_runtime : PyRuntime :=
  {| lower := map ascii_lower_char;
     isdigit := ascii_isdigit;
     fromisoformat := parse_ymd;
     date_isoformat := format_date;
     repr := ascii_repr;
     lower_ascii := fun s _ => eq_refl;
     lower_nonempty := ascii_lower_nonempty;
     isdigit_ascii := fun c _ => eq_refl |}.

(** The naive datetime of midnight on a calendar date. *)
Definition midnight (y m d : Z) : Z := Calendar.days_from_civil y m d * us_per_day.

(** ** Inputs used as examples *)

(** A page larger than 5000 stripped characters whose title is
    ["Domain Parking Inc"], with two parking phrases in the body. *)
Definition parking_title : str := lit "Domain Parking Inc".
Definition parking_body : str :=
  lit "parked by sedo. parked free. " ++ repeat (chr "x") (Z.to_nat 5001).
Definition parking_result : ProbeResult :=
  {| http_status_code := Some 200; page_title := Some parking_title;
     body_text := firstn 5000 parking_body;
     redirect_url := None; is_parked := false; is_for_sale := false;
     sale_platform := None; final_url := Some (lit "https://example.org/");
     error := None |}.

(** A large page of a real site whose body mentions a marketplace and a
    sale phrase. *)
Definition acme_title : str :=
  lit "Acme Corp " ++ [8212%N] ++ lit " Global Logistics".
Definition acme_body : str :=
  lit "buy this domain at godaddy " ++ repeat (chr "a") (Z.to_nat 6000).

(** A probe that got HTTP 404 and a WHOIS record whose registration ran
    out in 2020, looked at on 2026-11-03. *)
Definition not_found_probe : ProbeResult :=
  {| http_status_code := Some 404; page_title := None; body_text := [];
     redirect_url := None; is_parked := false; is_for_sale := false;
     sale_platform := None; final_url := Some (lit "https://example.org/");
     error := None |}.

Definition lapsed_whois : WhoisRecord :=
  {| registrar := Some (lit "Example Registrar");
     creation_date := Some (lit "2010-01-01");
     expiration_date := Some (lit "2020-01-01");
     name_servers := []; registrant := None; registrant_email := SNone |}.

(** An unreachable domain whose registration runs until 2026-06-01. *)
Definition held_whois : WhoisRecord :=
  {| registrar := Some (lit "Example Registrar");
     creation_date := Some (lit "2010-06-01");
     expiration_date := Some (lit "2026-06-01");
     name_servers := []; registrant := None; registrant_email := SNone |}.

Definition ab_io_reasons : list str :=
  [ lit "Established domain (15 years)";
    lit "Ultra-short name (2 chars)";
    lit "Desirable TLD (io)";
    lit "Appeared in 6 years of top lists";
    lit "Good brandability (pronounceable, clean)";
    lit "Currently active -- acquisition unlikely" ].

Definition ab_io_whois : WhoisRecord :=
  {| registrar := Some (lit "Example Registrar");
     creation_date := Some (lit "2011-11-03");
     expiration_date := Some (lit "2027-11-03");
     name_servers := [lit "ns1.example.net"];
     registrant := None; registrant_email := SNone |}.

(** ** Sorting

    [sorted(l)] and [l.sort(key=...)] are stable sorts.  [sorted_by leb]
    inserts every element in front of the first element it is below or
    equal to, coming from the right, which is stable: of two equal
    elements the one that came first stays first. *)

Fixpoint insert_sorted {A} (leb : A -> A -> bool) (x : A) (l : list A)
    : list A :=
  match l with
  | [] => [x]
  | y :: l' => if leb x y then x :: l else y :: insert_sorted leb x l'
  end.

Definition sorted_by {A} (leb : A -> A -> bool) (l : list A) : list A :=
  fold_right (insert_sorted leb) [] l.

(** [a <= b] on strings: lexicographic on code points. *)
Fixpoint str_leb (a b : str) : bool :=
  match a, b with
  | [], _ => true
  | _ :: _, [] => false
  | x :: a', y :: b' =>
      if N.ltb x y then true
      else if N.eqb x y then str_leb a' b'
      else false
  end.

(** [sorted(set(l))] on integers *)
Definition sorted_set (l : list Z) : list Z :=
  sorted_by Z.leb (nodup Z.eq_dec l).

(** ** Whitespace

    [str.strip()] removes the characters [c] with [c.isspace()] from both
    ends; which code points are whitespace is the interpreter's business. *)

Class PyText := {
  (** [c.isspace()] *)
  isspace : char -> bool
}.

Fixpoint lstrip `{PyText} (s : str) : str :=
  match s with
  | [] => []
  | c :: s' => if isspace c then lstrip s' else s
  end.

(** [s.strip()] *)
Definition strip `{PyText} (s : str) : str := rev (lstrip (rev (lstrip s))).

(** ASCII whitespace: tab to carriage return, the four separators and the
    space. *)
Definition ascii_isspace (c : char) : bool :=
  (((9 <=? c) && (c <=? 13)) || ((28 <=? c) && (c <=? 32)))%N.

Definition ascii_text : PyText := {| isspace := ascii_isspace |}.

(** ** The domain index *)

(** A dictionary from years to lists of domains, as the list of its items;
    [d.get(year, [])] *)
Fixpoint get_domains (domains_by_year : list (Z * list str)) (year : Z)
    : list str :=
  match domains_by_year with
  | [] => []
  | (y, ds) :: rest =>
      if Z.eqb y year then ds else get_domains rest year
  end.

(** [m.get(domain)] on the dictionary from domains to years *)
Fixpoint get_years (m : list (str * list Z)) (domain : str)
    : option (list Z) :=
  match m with
  | [] => None
  | (d, ys) :: rest =>
      if str_eqb d domain then Some ys else get_years rest domain
  end.

(** [m.setdefault(domain, []).append(year)]: a new key goes last. *)
Fixpoint setdefault_append (domain : str) (year : Z) (m : list (str * list Z))
    : list (str * list Z) :=
  match m with
  | [] => [(domain, [year])]
  | (d, ys) :: rest =>
      if str_eqb d domain then (d, ys ++ [year]) :: rest
      else (d, ys) :: setdefault_append domain year rest
  end.

(** [[filter_year] if filter_year else sorted(domains_by_year.keys())]: a
    filter year of 0 is falsy, like no filter. *)
Definition years_to_scan (domains_by_year : list (Z * list str))
    (filter_year : option Z) : list Z :=
  match filter_year with
  | Some y => if Z.eqb y 0 then sorted_by Z.leb (map fst domains_by_year)
              else [y]
  | None => sorted_by Z.leb (map fst domains_by_year)
  end.

(** The domains read for a year: all of them, or the first five. *)
Definition domains_for (domains_by_year : list (Z * list str)) (quick : bool)
    (year : Z) : list str :=
  let domains := get_domains domains_by_year year in
  if quick then firstn 5 domains else domains.

(** [domain.strip().lower()] *)
Definition normalise `{PyRuntime} `{PyText} (domain : str) : str :=
  lower (strip domain).

(** The inner loop: one year's domains. *)
Definition index_year `{PyRuntime} `{PyText} (year : Z) (domains : list str)
    (domain_years : list (str * list Z)) : list (str * list Z) :=
  fold_left
    (fun m domain =>
       let domain := normalise domain in
       if nonempty domain then setdefault_append domain year m else m)
    domains domain_years.

(** [build_domain_index] *)
Definition build_domain_index `{PyRuntime} `{PyText}
    (domains_by_year : list (Z * list str)) (filter_year : option Z)
    (quick : bool) : list str * list (str * list Z) :=
  let years := years_to_scan domains_by_year filter_year in
  let domain_years :=
    fold_left
      (fun m year =>
         index_year year (domains_for domains_by_year quick year) m)
      years [] in
  let domain_years :=
    map (fun '(d, ys) => (d, sorted_set ys)) domain_years in
  let unique_domains := sorted_by str_leb (map fst domain_years) in
  (unique_domains, domain_years).

(** Two years of a popular-domains table, with names in mixed case,
    padded, blank and repeated. *)
Definition sample_lists : list (Z * list str) :=
  [ (2005, [ lit " Example.COM "; lit "ebay.com"; lit "  ";
             lit "example.com"; lit "a.io"; lit "b.io"; lit "c.io" ]);
    (2004, [ lit "example.com"; lit "EBAY.com"; lit "about.com" ]) ].

(** ** HTTP probing *)

Definition MAX_RETRIES : Z := 2.

(** [range(lo, hi)] *)
Definition range (lo hi : Z) : list Z :=
  map Z.of_nat (seq (Z.to_nat lo) (Z.to_nat (hi - lo))).

(** [s.removeprefix(p)] *)
Definition removeprefix (p s : str) : str :=
  if startswith p s then skipn (length p) s else s.

(** The libraries behind the probe: [urlparse(url).netloc], and of
    BeautifulSoup the string of the first [title] tag ([None] when there is
    no such tag or no single string in it) and
    [get_text(separator=" ", strip=True)]. *)
Class WebLib := {
  netloc : str -> str;
  soup_title : str -> option str;
  soup_text : str -> str
}.

(** What [requests.get] answers. *)
Record Response := {
  resp_status_code : Z;
  resp_url : str;
  resp_text : str
}.

(** The failures of [requests.get], by the [except] clause that takes
    them: [SSLError]; any other [ConnectionError]; [Timeout]; any other
    [RequestException], with [str(exc)]. *)
Inductive http_exn :=
| SSLError
| ConnectionError
| RequestTimeout
| RequestException (msg : str).

Inductive http_outcome :=
| Responded (resp : Response)
| Failed (e : http_exn).

(** What the probe does to the outside: requests and pauses. *)
Inductive event :=
| Get (url : str)
| Sleep (seconds : Z).

Definition set_http_status_code (v : option Z) (r : ProbeResult)
    : ProbeResult :=
  {| http_status_code := v; page_title := page_title r;
     body_text := body_text r; redirect_url := redirect_url r;
     is_parked := is_parked r; is_for_sale := is_for_sale r;
     sale_platform := sale_platform r; final_url := final_url r;
     error := error r |}.

Definition set_page_title (v : option str) (r : ProbeResult) : ProbeResult :=
  {| http_status_code := http_status_code r; page_title := v;
     body_text := body_text r; redirect_url := redirect_url r;
     is_parked := is_parked r; is_for_sale := is_for_sale r;
     sale_platform := sale_platform r; final_url := final_url r;
     error := error r |}.

Definition set_body_text (v : str) (r : ProbeResult) : ProbeResult :=
  {| http_status_code := http_status_code r; page_title := page_title r;
     body_text := v; redirect_url := redirect_url r;
     is_parked := is_parked r; is_for_sale := is_for_sale r;
     sale_platform := sale_platform r; final_url := final_url r;
     error := error r |}.

Definition set_redirect_url (v : option str) (r : ProbeResult) : ProbeResult :=
  {| http_status_code := http_status_code r; page_title := page_title r;
     body_text := body_text r; redirect_url := v;
     is_parked := is_parked r; is_for_sale := is_for_sale r;
     sale_platform := sale_platform r; final_url := final_url r;
     error := error r |}.

Definition set_final_url (v : option str) (r : ProbeResult) : ProbeResult :=
  {| http_status_code := http_status_code r; page_title := page_title r;
     body_text := body_text r; redirect_url := redirect_url r;
     is_parked := is_parked r; is_for_sale := is_for_sale r;
     sale_platform := sale_platform r; final_url := v;
     error := error r |}.

Definition set_error (v : option str) (r : ProbeResult) : ProbeResult :=
  {| http_status_code := http_status_code r; page_title := page_title r;
     body_text := body_text r; redirect_url := redirect_url r;
     is_parked := is_parked r; is_for_sale := is_for_sale r;
     sale_platform := sale_platform r; final_url := final_url r;
     error := v |}.

(** The host of a URL or a domain as the redirect test compares it:
    lowercased, without a leading ["www."]. *)
Definition clean_host `{PyRuntime} (host : str) : str :=
  removeprefix (lit "www.") (lower host).

(** The body of the [try] block of [probe_http] after a response came. *)
Definition on_response `{PyRuntime} `{PyText} `{WebLib}
    (domain : str) (resp : Response) (result : ProbeResult) : ProbeResult :=
  let result := set_http_status_code (Some (resp_status_code resp)) result in
  let result := set_final_url (Some (resp_url resp)) result in
  let clean_original := clean_host domain in
  let clean_final := clean_host (netloc (resp_url resp)) in
  let result :=
    if negb (str_eqb clean_final clean_original)
    then set_redirect_url (Some (resp_url resp)) result
    else result in
  if (resp_status_code resp =? 200) && nonempty (resp_text resp) then
    let result :=
      if truthy (soup_title (resp_text resp))
      then set_page_title
             (Some (firstn 200 (strip (or_empty (soup_title (resp_text resp))))))
             result
      else result in
    let body := lower (soup_text (resp_text resp)) in
    let result := set_body_text (firstn 5000 body) result in
    _analyse_page_content result body (lower (resp_text resp))
  else result.

(** How one pass through the retry loop ends: [return result], [break],
    or on to the next attempt. *)
Inductive flow :=
| Returned
| Broke
| Next.

Definition probe_state : Type := ProbeResult * list event.

(** One attempt: the request and the [except] clause that handles its
    failure. *)
Definition probe_attempt `{PyRuntime} `{PyText} `{WebLib}
    (http_get : str -> Z -> http_outcome)
    (domain url last_url : str) (attempt : Z) (st : probe_state)
    : flow * probe_state :=
  let '(result, trace) := st in
  let trace := trace ++ [Get url] in
  match http_get url attempt with
  | Responded resp => (Returned, (on_response domain resp result, trace))
  | Failed SSLError =>
      if startswith (lit "https://") url then (Broke, (result, trace))
      else (Next, (set_error (Some (lit "SSL error")) result, trace))
  | Failed ConnectionError =>
      if attempt =? MAX_RETRIES then
        if str_eqb url last_url
        then (Next, (set_error (Some (lit "Connection refused")) result,
                     trace ++ [Sleep 1]))
        else (Broke, (result, trace))
      else (Next, (result, trace ++ [Sleep 1]))
  | Failed RequestTimeout =>
      if attempt =? MAX_RETRIES then
        if str_eqb url last_url
        then (Next, (set_error (Some (lit "Timeout")) result,
                     trace ++ [Sleep 1]))
        else (Broke, (result, trace))
      else (Next, (result, trace ++ [Sleep 1]))
  | Failed (RequestException msg) =>
      let result := set_error (Some (firstn 200 msg)) result in
      if (attempt =? MAX_RETRIES) && str_eqb url last_url
      then (Returned, (result, trace))
      else if attempt =? MAX_RETRIES then (Broke, (result, trace))
      else (Next, (result, trace ++ [Sleep 1]))
  end.

(** The inner loop over the attempts on one URL; [true] when the function
    has returned. *)
Fixpoint retry_loop `{PyRuntime} `{PyText} `{WebLib}
    (http_get : str -> Z -> http_outcome)
    (domain url last_url : str) (attempts : list Z) (st : probe_state)
    : bool * probe_state :=
  match attempts with
  | [] => (false, st)
  | attempt :: rest =>
      match probe_attempt http_get domain url last_url attempt st with
      | (Returned, st') => (true, st')
      | (Broke, st') => (false, st')
      | (Next, st') => retry_loop http_get domain url last_url rest st'
      end
  end.

(** The outer loop over the URLs. *)
Fixpoint url_loop `{PyRuntime} `{PyText} `{WebLib}
    (http_get : str -> Z -> http_outcome)
    (domain last_url : str) (urls : list str) (st : probe_state)
    : probe_state :=
  match urls with
  | [] => st
  | url :: rest =>
      match retry_loop http_get domain url last_url
              (range 1 (MAX_RETRIES + 1)) st with
      | (true, st') => st'
      | (false, st') => url_loop http_get domain last_url rest st'
      end
  end.

(** [probe_http]: the result and what was done to get it.  [http_get url
    attempt] is the answer to the request of that attempt. *)
Definition probe_http `{PyRuntime} `{PyText} `{WebLib}
    (http_get : str -> Z -> http_outcome) (domain : str) : probe_state :=
  let urls_to_try := [lit "https://" ++ domain; lit "http://" ++ domain] in
  url_loop http_get domain (last urls_to_try []) urls_to_try
           (initial_result, []).

(** A library for pages without markup: no title element, the text is the
    page itself, and the host of a URL is what stands between ["//"] and
    the next slash. *)
Fixpoint until_char (c : char) (s : str) : str :=
  match s with
  | [] => []
  | x :: s' => if N.eqb x c then [] else x :: until_char c s'
  end.

Fixpoint after_slashes (s : str) : str :=
  match s with
  | [] => []
  | x :: s' =>
      if startswith (lit "//") s then skipn 2 s else after_slashes s'
  end.

Definition plain_web : WebLib :=
  {| netloc := fun u => until_char (chr "/") (after_slashes u);
     soup_title := fun _ => None;
     soup_text := fun t => t |}.

Definition is_get (e : event) : bool :=
  match e with Get _ => true | Sleep _ => false end.

(** The requests of a trace, in order. *)
Definition requests (trace : list event) : list str :=
  flat_map (fun e => match e with Get u => [u] | Sleep _ => [] end) trace.

(** The seconds a trace pauses in total. *)
Definition seconds_slept (trace : list event) : Z :=
  fold_right (fun e acc => match e with Sleep s => s + acc | Get _ => acc end)
             0 trace.

(** A network on which every request fails in the same way. *)
Definition dead_network (e : http_exn) : str -> Z -> http_outcome :=
  fun _ _ => Failed e.


Definition missing_network : str -> Z -> http_outcome :=
  fun u _ =>
    Responded {| resp_status_code := 404; resp_url := u;
                 resp_text := lit "not found: buy this domain" |}.

(** ** The check of one domain *)

Record CheckResult := {
  cr_domain : str;
  cr_years_popular : list Z;
  cr_status : str;
  cr_http_status_code : option Z;
  cr_redirect_url : option str;
  cr_page_title : option str;
  cr_is_parked : bool;
  cr_is_for_sale : bool;
  cr_sale_platform : option str;
  cr_whois : WhoisRecord;
  cr_recommendation : Recommendation;
  cr_checked_at : str
}.

(** [needs_whois] of [check_domain] *)
Definition needs_whois (http_result : ProbeResult) : bool :=
  match http_status_code http_result with Some _ => false | None => true end
  || is_parked http_result
  || is_for_sale http_result
  || truthy (error http_result).

(** [check_domain].  The network answers through [http_get] and
    [whois_query]; [now_status] and [now_score] are the clock readings of
    [determine_status] and [score_domain], [checked_at] the final time
    stamp.  The pause behind the rate lock is not part of the result.  The
    WHOIS lookup is made on both branches of [needs_whois]; only the second
    one guards it, and then an exception leaves an empty dictionary. *)
Definition check_domain `{PyRuntime} `{PyText} `{WebLib}
    (http_get : str -> Z -> http_outcome)
    (whois_query : str -> outcome (option whois_entry))
    (now_status now_score : Z) (checked_at : str)
    (domain : str) (years_popular : list Z) : outcome CheckResult :=
  let http_result := fst (probe_http http_get domain) in
  let looked_up :=
    if needs_whois http_result then lookup_whois whois_query domain
    else match lookup_whois whois_query domain with
         | Return info => Return info
         | Raise _ => Return empty_info
         end in
  match looked_up with
  | Raise e => Raise e
  | Return whois_info =>
      let status :=
        determine_status now_status http_result whois_info domain in
      Return
        {| cr_domain := domain;
           cr_years_popular := years_popular;
           cr_status := status;
           cr_http_status_code := http_status_code http_result;
           cr_redirect_url := redirect_url http_result;
           cr_page_title := page_title http_result;
           cr_is_parked := is_parked http_result;
           cr_is_for_sale := is_for_sale http_result;
           cr_sale_platform := sale_platform http_result;
           cr_whois := whois_info;
           cr_recommendation :=
             score_domain now_score domain years_popular status whois_info;
           cr_checked_at := checked_at |}
  end.

(** ** The report *)

(** The record [run_checker] writes for a check that raised. *)
Definition error_result (domain : str) (years_popular : list Z)
    (exc : str) (checked_at : str) : CheckResult :=
  {| cr_domain := domain;
     cr_years_popular := years_popular;
     cr_status := lit "error";
     cr_http_status_code := None;
     cr_redirect_url := None;
     cr_page_title := None;
     cr_is_parked := false;
     cr_is_for_sale := false;
     cr_sale_platform := None;
     cr_whois := empty_info;
     cr_recommendation :=
       {| score := 1; reason := lit "Check failed: " ++ exc;
          estimated_value := lit "Unknown" |};
     cr_checked_at := checked_at |}.

(** The sort key [(-score, domain)] and the order of tuples on it. *)
Definition sort_key (r : CheckResult) : Z * str :=
  (- score (cr_recommendation r), cr_domain r).

Definition key_leb (a b : Z * str) : bool :=
  if fst a <? fst b then true
  else if fst a =? fst b then str_leb (snd a) (snd b)
  else false.

(** [results.sort(key=lambda r: (-score, domain))] *)
Definition sort_results (results : list CheckResult) : list CheckResult :=
  sorted_by (fun a b => key_leb (sort_key a) (sort_key b)) results.

(** [summary.get(status, 0)] *)
Fixpoint summary_get (summary : list (str * Z)) (status : str) : Z :=
  match summary with
  | [] => 0
  | (k, n) :: rest =>
      if str_eqb k status then n else summary_get rest status
  end.

(** [summary[status] = n]: a new key goes last. *)
Fixpoint summary_set (status : str) (n : Z) (summary : list (str * Z))
    : list (str * Z) :=
  match summary with
  | [] => [(status, n)]
  | (k, m) :: rest =>
      if str_eqb k status then (k, n) :: rest
      else (k, m) :: summary_set status n rest
  end.

Definition initial_summary : list (str * Z) :=
  [ (lit "active", 0); (lit "parked", 0); (lit "for_sale", 0);
    (lit "expired", 0); (lit "available", 0); (lit "redirect", 0);
    (lit "error", 0); (lit "unknown", 0) ].

(** [_build_summary] *)
Definition _build_summary (results : list CheckResult) : list (str * Z) :=
  fold_left
    (fun summary r =>
       let status := cr_status r in
       summary_set status (summary_get summary status + 1) summary)
    results initial_summary.

(** [sum(summary.values())], the total [_print_summary] shows *)
Definition summary_total (summary : list (str * Z)) : Z :=
  fold_right Z.add 0 (map snd summary).

(** ** The command line *)

Record Args := {
  arg_year : option Z;
  arg_workers : Z;
  arg_output : str;
  arg_quick : bool;
  arg_verbose : bool
}.

(** What [main] does after parsing: leave with an exit code, or call
    [run_checker] with these arguments. *)
Inductive main_action :=
| Exit (code : Z)
| RunChecker (filter_year : option Z) (max_workers : Z) (output_file : str)
             (quick : bool).

(** [main] after [parse_args]; [DOMAINS_BY_YEAR] is the table of the
    module [domain_lists]. *)
Definition main (DOMAINS_BY_YEAR : list (Z * list str)) (args : Args)
    : main_action :=
  let known :=
    match arg_year args with
    | Some y => existsb (Z.eqb y) (map fst DOMAINS_BY_YEAR)
    | None => true
    end in
  if negb known then Exit 1
  else
    let workers := Z.max 1 (Z.min (arg_workers args) 50) in
    RunChecker (arg_year args) workers (arg_output args) (arg_quick args).

(** A domain on which nothing fires in [score_domain]. *)
Definition plain_domain : str := lit "xq-zzzzzzz.org".

(** A WHOIS record whose dates are not ISO dates. *)
Definition garbled_whois : WhoisRecord :=
  {| registrar := Some (lit "Example Registrar");
     creation_date := Some (lit "before 1998");
     expiration_date := Some (lit "not-a-date");
     name_servers := []; registrant := None; registrant_email := SNone |}.

(** The creation date when WHOIS has one that is usable: it parses and can
    be subtracted from the current time. *)
Definition usable_creation `{PyRuntime} (whois_info : WhoisRecord)
    : option Z :=
  if truthy (creation_date whois_info) then
    match fromisoformat (or_empty (creation_date whois_info)) with
    | Some (Naive creation) => Some creation
    | _ => None
    end
  else None.

(** Results of three checks, as two workers may hand them in. *)
Definition sample_result (domain : str) (value : Z) (status : str)
    : CheckResult :=
  {| cr_domain := domain; cr_years_popular := [2004]; cr_status := status;
     cr_http_status_code := None; cr_redirect_url := None;
     cr_page_title := None; cr_is_parked := false; cr_is_for_sale := false;
     cr_sale_platform := None; cr_whois := empty_info;
     cr_recommendation :=
       {| score := value; reason := lit "Standard domain";
          estimated_value := lit "$2,500-$5,000" |};
     cr_checked_at := lit "2026-11-03T10:00:00+00:00" |}.

Definition sample_results : list CheckResult :=
  [ sample_result (lit "b.example") 5 (lit "parked");
    sample_result (lit "a.example") 5 (lit "expired");
    sample_result (lit "c.example") 8 (lit "parked") ].

(** A WHOIS service that is down. *)
Definition whois_down : str -> outcome (option whois_entry) :=
  fun _ => Raise (OtherException (lit "connection reset")).

(** A page that offers its domain, and one that says nothing of the
    kind. *)
Definition offer_result : ProbeResult :=
  {| http_status_code := Some 200;
     page_title := Some (lit "Ahoy " ++ [8212%N] ++ lit " Welcome");
     body_text := lit "this domain is for sale. make an offer today.";
     redirect_url := None; is_parked := false; is_for_sale := false;
     sale_platform := None; final_url := Some (lit "https://ahoy.example/");
     error := None |}.

Definition quiet_result : ProbeResult :=
  {| http_status_code := Some 200; page_title := Some (lit "Acme");
     body_text := lit "welcome to acme";
     redirect_url := None; is_parked := false; is_for_sale := false;
     sale_platform := None; final_url := Some (lit "https://acme.example/");
     error := None |}.

(** * Properties *)

(** ** Content signals *)

Section ContentSignals.
Context {R : PyRuntime}.

(** The last two steps of the analyser keep "for-sale implies parked":
    the step after the for-sale detection establishes it and the
    placeholder step can only set the parked flag. *)
Lemma set_is_parked_true_keeps (r : ProbeResult) :
  implb (is_for_sale (set_is_parked true r))
        (is_parked (set_is_parked true r)) = true.
Proof. simpl. apply implb_true_r. Qed.

Lemma mark_parked_if_for_sale (r : ProbeResult) :
  let r' := if is_for_sale r then set_is_parked true r else r in
  implb (is_for_sale r') (is_parked r') = true.
Proof.
  simpl. destruct (is_for_sale r) eqn:E.
  - apply set_is_parked_true_keeps.
  - rewrite E. reflexivity.
Qed.

(** The analyser preserves "for-sale implies parked" from any result that
    satisfies it. *)
Lemma analyse_preserves_for_sale_parked (r : ProbeResult) (body raw : str) :
  implb (is_for_sale r) (is_parked r) = true ->
  let r' := _analyse_page_content r body raw in
  implb (is_for_sale r') (is_parked r') = true.
Proof.
  intros Hinv. unfold _analyse_page_content. cbv zeta.
  destruct (is_real_site r body); [exact Hinv|].
  match goal with
  | |- context [if any_in sale_phrases body then ?a else ?b] =>
      generalize (if any_in sale_phrases body then a else b)
  end.
  intros r3.
  pose proof (mark_parked_if_for_sale r3) as Hstep. simpl in Hstep.
  set (r4 := if is_for_sale r3 then set_is_parked true r3 else r3) in *.
  destruct (_ && truthy (page_title r4)); [|exact Hstep].
  destruct (any_in _ _); [apply set_is_parked_true_keeps | exact Hstep].
Qed.

(** The guard holds as soon as the stripped body is longer than 5000
    characters and the lowercased title is non-empty and free of the four
    words. *)
Lemma is_real_site_intro (r : ProbeResult) (title body : str) :
  page_title r = Some title ->
  5000 < stripped_len body ->
  title <> [] ->
  any_in title_words (lower title) = false ->
  is_real_site r body = true.
Proof.
  intros Ht Hlen Hne Hw. unfold is_real_site. rewrite Ht.
  cbn [or_empty]. rewrite Hw. apply Z.ltb_lt in Hlen. rewrite Hlen.
  destruct (lower title) eqn:E; [|reflexivity].
  exfalso. exact (lower_nonempty title Hne E).
Qed.

End ContentSignals.

(** The stripped length of the source removes spaces only, so it is at
    least the length left after removing every whitespace character,
    whichever characters count as whitespace besides the space. *)
Lemma stripped_len_whitespace (isspace : char -> bool) (body : str) :
  isspace (chr " ") = true ->
  len (filter (fun c => negb (isspace c)) body) <= stripped_len body.
Proof.
  intros Hsp. unfold stripped_len, remove_char, len.
  apply Nat2Z.inj_le.
  induction body as [|c body IH]; [apply le_n|].
  cbn [filter].
  destruct (N.eqb c (chr " ")) eqn:E.
  - apply N.eqb_eq in E. subst c. rewrite Hsp. exact IH.
  - cbn [negb]. destruct (isspace c); cbn [negb length]; lia.
Qed.

(** C3: for every title and body text given to the content signal analyser
    on a result as [probe_http] prepares it (flags unset), the resulting
    ProbeResult satisfies: [is_for_sale] true implies [is_parked] true. *)
Theorem for_sale_implies_parked {R : PyRuntime}
    (code : option Z) (title : option str) (text : str)
    (redirect final err : option str) (body raw : str) :
  let result :=
    {| http_status_code := code; page_title := title; body_text := text;
       redirect_url := redirect; is_parked := false; is_for_sale := false;
       sale_platform := None; final_url := final; error := err |} in
  let r' := _analyse_page_content result body raw in
  implb (is_for_sale r') (is_parked r') = true.
Proof.
  intros result. apply analyse_preserves_for_sale_parked. reflexivity.
Qed.

(** C6, as stated, fails: the title is non-empty and contains none of the
    four substrings (its words are capitalised), the stripped body is longer
    than 5000, and yet the analysis runs and marks the page parked, because
    the guard looks at the lowercased title. *)
Lemma real_site_guard_is_case_insensitive :
  5000 < stripped_len parking_body
  /\ parking_title <> []
  /\ any_in title_words parking_title = false
  /\ is_parked (@_analyse_page_content ascii_runtime parking_result
                  parking_body parking_body) = true.
Proof.
  split; [vm_compute; reflexivity|].
  split; [discriminate|].
  split; vm_compute; reflexivity.
Qed.

(** C6, amended: when the stripped body is longer than 5000, the title is
    non-empty and the lowercased title contains none of "domain", "parked",
    "for sale", "coming soon", the analyser returns the result untouched:
    [is_parked] and [is_for_sale] stay false and [sale_platform] unset,
    whatever the body contains. *)
Theorem real_site_early_exit {R : PyRuntime}
    (code : option Z) (title : str) (text : str)
    (redirect final err : option str) (body raw : str) :
  let result :=
    {| http_status_code := code; page_title := Some title; body_text := text;
       redirect_url := redirect; is_parked := false; is_for_sale := false;
       sale_platform := None; final_url := final; error := err |} in
  5000 < stripped_len body ->
  title <> [] ->
  any_in title_words (lower title) = false ->
  let r' := _analyse_page_content result body raw in
  r' = result
  /\ is_parked r' = false /\ is_for_sale r' = false /\ sale_platform r' = None.
Proof.
  intros result Hlen Hne Hw r'. subst r'.
  unfold _analyse_page_content.
  rewrite (is_real_site_intro result title body eq_refl Hlen Hne Hw).
  repeat split.
Qed.

Lemma real_site_early_exit_witness :
  let result :=
    {| http_status_code := Some 200; page_title := Some acme_title;
       body_text := firstn 5000 acme_body;
       redirect_url := None; is_parked := false; is_for_sale := false;
       sale_platform := None; final_url := None; error := None |} in
  let r' := @_analyse_page_content ascii_runtime result acme_body acme_body in
  r' = result
  /\ is_parked r' = false /\ is_for_sale r' = false /\ sale_platform r' = None.
Proof.
  apply (@real_site_early_exit ascii_runtime).
  - vm_compute. reflexivity.
  - discriminate.
  - vm_compute. reflexivity.
Defined.

(** ** Status resolution *)

(** C5: for every probe result, WHOIS record and domain outside the
    known-active allow-list, a redirect URL set on the probe result makes
    the verdict [redirect], whatever the parked and for-sale flags and the
    WHOIS fields are. *)
Theorem redirect_wins {R : PyRuntime} (now : Z)
    (http_result : ProbeResult) (whois_info : WhoisRecord) (domain : str) :
  in_set domain KNOWN_ACTIVE_DOMAINS = false ->
  truthy (redirect_url http_result) = true ->
  determine_status now http_result whois_info domain = lit "redirect".
Proof.
  intros Hd Hr. unfold determine_status. rewrite Hd, Hr. reflexivity.
Qed.

Lemma redirect_wins_witness :
  @determine_status ascii_runtime (midnight 2026 11 3)
    {| http_status_code := Some 200; page_title := Some (lit "Example");
       body_text := lit "this domain is for sale";
       redirect_url := Some (lit "https://www.example.org/");
       is_parked := true; is_for_sale := true;
       sale_platform := Some (lit "sedo");
       final_url := Some (lit "https://www.example.org/"); error := None |}
    {| registrar := Some (lit "Example Registrar");
       creation_date := Some (lit "1995-08-14");
       expiration_date := Some (lit "2001-08-13");
       name_servers := [lit "ns1.example.org"];
       registrant := None; registrant_email := SNone |}
    (lit "example.net")
  = lit "redirect".
Proof.
  apply (@redirect_wins ascii_runtime); reflexivity.
Defined.

(** C1, as stated, fails: the domain is outside the allow-list, the
    redirect, for-sale and parked flags are unset, the status code 404 is
    present and outside [200,400), and the verdict is [expired], not
    [active]: the test for an expiration date in the past is made whether or
    not an HTTP status is present. *)
Lemma status_404_expired_whois :
  in_set (lit "example.org") KNOWN_ACTIVE_DOMAINS = false
  /\ truthy (redirect_url not_found_probe) = false
  /\ is_for_sale not_found_probe = false
  /\ is_parked not_found_probe = false
  /\ http_status_code not_found_probe = Some 404
  /\ in_range 200 400 404 = false
  /\ @determine_status ascii_runtime (midnight 2026 11 3)
       not_found_probe lapsed_whois (lit "example.org") = lit "expired"
  /\ lit "expired" <> lit "active".
Proof.
  repeat split; try reflexivity. discriminate.
Qed.

(** C1, amended: for every input where the domain is outside the
    allow-list, the redirect, for-sale and parked flags are unset and the
    HTTP status code is present but outside [200,400), the verdict is
    [expired] when the WHOIS expiration date parses to a naive datetime in
    the past and [active], by the fallback, otherwise, also when the date
    does not parse or carries a time zone: of the WHOIS rules only the one
    for a date in the past applies when an HTTP status is present. *)
Theorem status_with_http_error {R : PyRuntime} (now : Z)
    (http_result : ProbeResult) (whois_info : WhoisRecord) (domain : str)
    (c : Z) :
  in_set domain KNOWN_ACTIVE_DOMAINS = false ->
  truthy (redirect_url http_result) = false ->
  is_for_sale http_result = false ->
  is_parked http_result = false ->
  http_status_code http_result = Some c ->
  in_range 200 400 c = false ->
  determine_status now http_result whois_info domain
  = if whois_expired now whois_info then lit "expired" else lit "active".
Proof.
  intros Hd Hr Hs Hp Hc Hrange.
  unfold determine_status, whois_expired, expiration_verdict.
  rewrite Hd, Hr, Hs, Hp, Hc, Hrange. cbn [andb negb].
  destruct (truthy (expiration_date whois_info)) eqn:Hexp.
  - rewrite !orb_true_r. cbn [andb orb negb].
    destruct (fromisoformat _) as [[e|e off]|]; try reflexivity.
    destruct (e <? now); reflexivity.
  - rewrite !andb_false_r. reflexivity.
Qed.

Lemma status_with_http_error_witness :
  @determine_status ascii_runtime (midnight 2026 11 3)
    not_found_probe lapsed_whois (lit "example.org")
  = if @whois_expired ascii_runtime (midnight 2026 11 3) lapsed_whois
    then lit "expired" else lit "active".
Proof.
  apply (@status_with_http_error ascii_runtime) with (c := 404); reflexivity.
Defined.

(** With an HTTP status outside [200,400): an expiration date that does
    not parse, or that carries a time zone, leaves the verdict [active]. *)
Lemma status_with_http_error_unusable_date {R : PyRuntime} (now : Z)
    (http_result : ProbeResult) (whois_info : WhoisRecord) (domain : str)
    (c : Z) :
  in_set domain KNOWN_ACTIVE_DOMAINS = false ->
  truthy (redirect_url http_result) = false ->
  is_for_sale http_result = false ->
  is_parked http_result = false ->
  http_status_code http_result = Some c ->
  in_range 200 400 c = false ->
  (forall e, fromisoformat (or_empty (expiration_date whois_info))
             <> Some (Naive e)) ->
  determine_status now http_result whois_info domain = lit "active".
Proof.
  intros Hd Hr Hs Hp Hc Hrange Hbad.
  unfold determine_status, expiration_verdict.
  rewrite Hd, Hr, Hs, Hp, Hc, Hrange. cbn [andb negb].
  destruct (truthy (expiration_date whois_info)).
  - rewrite !orb_true_r. cbn [andb orb negb].
    destruct (fromisoformat _) as [[e|e off]|]; try reflexivity.
    exfalso. exact (Hbad e eq_refl).
  - rewrite !andb_false_r. reflexivity.
Qed.

(** C2, as stated, fails: two calls with the same probe result, WHOIS
    record and domain, one made on 2026-01-01 and one on 2026-12-01, return
    [parked] and [expired]: the verdict also depends on the clock. *)
Lemma status_depends_on_clock :
  @determine_status ascii_runtime (midnight 2026 1 1)
     initial_result held_whois (lit "example.org") = lit "parked"
  /\ @determine_status ascii_runtime (midnight 2026 12 1)
       initial_result held_whois (lit "example.org") = lit "expired"
  /\ @determine_status ascii_runtime (midnight 2026 1 1)
       initial_result held_whois (lit "example.org")
     <> @determine_status ascii_runtime (midnight 2026 12 1)
          initial_result held_whois (lit "example.org").
Proof.
  repeat split; try reflexivity. vm_compute. discriminate.
Qed.

(** C2, amended: two calls with identical probe result, WHOIS record and
    domain return the same verdict provided the clock readings of the two
    calls lie on the same side of the parsed WHOIS expiration date, if
    there is one; in particular when both calls read the same time. *)
Theorem status_deterministic {R : PyRuntime} (now1 now2 : Z)
    (http_result : ProbeResult) (whois_info : WhoisRecord) (domain : str) :
  (forall exp_date,
      fromisoformat (or_empty (expiration_date whois_info))
      = Some (Naive exp_date) ->
      (exp_date <? now1) = (exp_date <? now2)) ->
  determine_status now1 http_result whois_info domain
  = determine_status now2 http_result whois_info domain.
Proof.
  intros Hside. unfold determine_status, expiration_verdict.
  destruct (fromisoformat _) as [[e|e off]|]; try reflexivity.
  rewrite (Hside e eq_refl). reflexivity.
Qed.

Lemma status_deterministic_witness :
  @determine_status ascii_runtime (midnight 2026 1 1)
     initial_result held_whois (lit "example.org")
  = @determine_status ascii_runtime (midnight 2026 3 1)
      initial_result held_whois (lit "example.org").
Proof.
  apply (@status_deterministic ascii_runtime).
  intros e He. vm_compute in He. injection He as <-. reflexivity.
Defined.

(** The resolver is the decision table [status_rules] with fallback
    [active]: rules 1 to 5 and 7 to 9 as the specification orders them, and
    the rule for a date in the past in sixth place. *)
Theorem determine_status_first_match {R : PyRuntime} (now : Z)
    (http_result : ProbeResult) (whois_info : WhoisRecord) (domain : str) :
  determine_status now http_result whois_info domain
  = first_match (status_rules now http_result whois_info domain)
                (lit "active").
Proof.
  unfold determine_status, first_match, status_rules, usable_expiration,
    whois_signal, expiration_verdict.
  cbv zeta. cbn [find fst].
  destruct (in_set domain KNOWN_ACTIVE_DOMAINS); [reflexivity|].
  destruct (truthy (redirect_url http_result)); [reflexivity|].
  destruct (is_for_sale http_result); [reflexivity|].
  destruct (is_parked http_result); [reflexivity|].
  destruct (http_status_code http_result) as [c|];
    [destruct (in_range 200 400 c); [reflexivity|] |];
    destruct (truthy (registrar whois_info)),
             (truthy (creation_date whois_info)),
             (truthy (expiration_date whois_info)),
             (nonempty (name_servers whois_info));
    cbn [andb orb negb];
    try reflexivity;
    (destruct (fromisoformat _) as [[e|e off]|]; try reflexivity;
     destruct (e <? now); reflexivity).
Qed.

(** ** Strings *)

Lemma str_eqb_eq (a b : str) : str_eqb a b = true <-> a = b.
Proof.
  revert b. induction a as [|x a IH]; intros [|y b]; simpl;
    try (split; [discriminate | congruence]); [tauto|].
  rewrite andb_true_iff, N.eqb_eq, IH.
  split; [intros [-> ->]; reflexivity | intros E; injection E; auto].
Qed.

Lemma str_eqb_neq (a b : str) : str_eqb a b = false <-> a <> b.
Proof.
  rewrite <- str_eqb_eq. destruct (str_eqb a b); split; congruence.
Qed.

(** ** Value estimate *)

(** C7: when the status is [available] the estimate is the flat
    registration-cost string whatever the score; otherwise every score from
    1 to 10 yields its entry of the fixed table, 7 giving "$10,000-$25,000"
    and 10 giving "$100,000+". *)
Theorem estimate_value_table (age_years : Q) (name_len : Z) (status : str) :
  (status = lit "available" ->
   forall score,
     _estimate_value score age_years name_len status
     = lit "$10-$15 (registration cost)")
  /\ (status <> lit "available" ->
      let value score := _estimate_value score age_years name_len status in
      value 1 = lit "$0-$100"
      /\ value 2 = lit "$100-$500"
      /\ value 3 = lit "$500-$1,000"
      /\ value 4 = lit "$1,000-$2,500"
      /\ value 5 = lit "$2,500-$5,000"
      /\ value 6 = lit "$5,000-$10,000"
      /\ value 7 = lit "$10,000-$25,000"
      /\ value 8 = lit "$25,000-$50,000"
      /\ value 9 = lit "$50,000-$100,000"
      /\ value 10 = lit "$100,000+").
Proof.
  split.
  - intros -> score. reflexivity.
  - intros Hne. apply str_eqb_neq in Hne. unfold _estimate_value.
    rewrite Hne. repeat split.
Qed.

(** ** Scoring *)

Section Scoring.
Context {R : PyRuntime}.
Local Open Scope Q_scope.

Lemma Qleb_true (a b : Q) : Qleb a b = true <-> a <= b.
Proof. apply Qle_bool_iff. Qed.

Lemma Qleb_false (a b : Q) : Qleb a b = false <-> b < a.
Proof.
  unfold Qleb. destruct (Qle_bool a b) eqn:E.
  - split; [discriminate|]. intros H. apply Qle_bool_iff in E.
    apply Qlt_not_le in H. contradiction.
  - split; [|reflexivity]. intros _. apply Qnot_le_lt. intros H.
    apply Qle_bool_iff in H. congruence.
Qed.

(** Rounding never goes below the integer part. *)
Lemma py_round_ge_floor (x : Q) : (Qfloor x <= py_round x)%Z.
Proof.
  unfold py_round. destruct (Qcompare _ _); [destruct (Z.even _)| |]; lia.
Qed.

Lemma py_round_ge (n : Z) (x : Q) : inject_Z n <= x -> (n <= py_round x)%Z.
Proof.
  intros H. apply Qfloor_resp_le in H. rewrite Qfloor_Z in H.
  pose proof (py_round_ge_floor x). lia.
Qed.

Lemma len_nonneg {A} (l : list A) : 0 <= inject_Z (len l).
Proof. change 0 with (inject_Z 0). rewrite <- Zle_Qle. unfold len. lia. Qed.

(** Ties go to the even neighbour. *)
Example py_round_ties :
  py_round (21 # 2) = 10%Z /\ py_round (19 # 2) = 10%Z
  /\ py_round (7 # 2) = 4%Z /\ py_round (5 # 2) = 2%Z
  /\ py_round 3 = 3%Z /\ py_round (- (1 # 2)) = 0%Z.
Proof. repeat split. Qed.

(** What each block can take from the score. *)

Ltac case_ifs :=
  repeat match goal with
         | |- context [if ?b then _ else _] => destruct b
         end.

Lemma age_block_ge now w t : fst t <= fst (snd (age_block now w t)).
Proof.
  unfold age_block.
  destruct (truthy _); [|simpl; lra].
  destruct (fromisoformat _) as [[c|c off]|]; try (simpl; lra).
  cbv zeta. cbn [snd].
  case_ifs; simpl; lra.
Qed.

Lemma length_block_ge n t : fst t - 1 <= fst (length_block n t).
Proof.
  unfold length_block.
  case_ifs; simpl; lra.
Qed.

Lemma tld_block_ge d t : fst t <= fst (tld_block d t).
Proof.
  unfold tld_block.
  case_ifs; simpl; lra.
Qed.

Lemma popularity_block_ge ys t : fst t <= fst (popularity_block ys t).
Proof.
  unfold popularity_block. cbv zeta.
  case_ifs; simpl; lra.
Qed.

Lemma keyword_block_ge n t : fst t <= fst (keyword_block n t).
Proof.
  unfold keyword_block. cbv zeta.
  destruct (nonempty _); [|lra].
  cbn [bump fst].
  match goal with
  | |- context [Qmin ?a ?b] =>
      assert (0 <= Qmin a b)
        by (apply Q.min_glb; [pose proof (len_nonneg
              (filter (fun kw => contains kw n) HIGH_VALUE_KEYWORDS)); lra
                             | lra])
  end.
  lra.
Qed.

Lemma brandability_block_ge n t :
  fst t - (1 # 2) <= fst (brandability_block n t).
Proof.
  unfold brandability_block. cbv zeta.
  case_ifs; simpl; lra.
Qed.

Lemma status_block_ge s t : fst t - (1 # 2) <= fst (status_block s t).
Proof.
  unfold status_block.
  case_ifs; simpl; lra.
Qed.

(** The score before rounding is at least 3.0. *)
Lemma raw_score_ge now domain ys status w :
  3 <= fst (snd (raw_score now domain ys status w)).
Proof.
  unfold raw_score.
  pose proof (age_block_ge now w (5, [])) as Ha.
  destruct (age_block now w (5, [])) as [age t0]. cbn [fst snd] in *.
  set (name_part := hd [] (split (chr ".") domain)).
  pose proof (length_block_ge (len name_part) t0) as H1.
  set (t1 := length_block (len name_part) t0) in *.
  pose proof (tld_block_ge domain t1) as H2.
  set (t2 := tld_block domain t1) in *.
  pose proof (popularity_block_ge ys t2) as H3.
  set (t3 := popularity_block ys t2) in *.
  pose proof (keyword_block_ge (lower name_part) t3) as H4.
  set (t4 := keyword_block (lower name_part) t3) in *.
  pose proof (brandability_block_ge (lower name_part) t4) as H5.
  set (t5 := brandability_block (lower name_part) t4) in *.
  pose proof (status_block_ge status t5) as H6.
  lra.
Qed.

Lemma score_domain_score now domain ys status w :
  score (score_domain now domain ys status w)
  = Z.max 1 (Z.min 10
               (py_round (fst (snd (raw_score now domain ys status w))))).
Proof.
  unfold score_domain.
  destruct (raw_score now domain ys status w) as [[age n] [s rs]].
  reflexivity.
Qed.

End Scoring.

(** C4: for every domain name, years-popular list, status and WHOIS record
    the score returned by [score_domain] is an integer between 1 and 10. *)
Theorem score_in_range {R : PyRuntime} (now : Z) (domain : str)
    (years_popular : list Z) (status : str) (whois_info : WhoisRecord) :
  1 <= score (score_domain now domain years_popular status whois_info) <= 10.
Proof.
  rewrite score_domain_score. lia.
Qed.

(** C10: for every domain name, years-popular list, status and WHOIS
    record the score returned by [score_domain] is at least 3: the
    adjustments take at most 1.0 (length), 0.5 (brandability) and 0.5
    (active status) from the base 5.0, so the score before rounding is at
    least 3.0 and the lower clamp bound 1 is never reached. *)
Theorem score_at_least_three {R : PyRuntime} (now : Z) (domain : str)
    (years_popular : list Z) (status : str) (whois_info : WhoisRecord) :
  (3 <= fst (snd (raw_score now domain years_popular status whois_info)))%Q
  /\ 3 <= score (score_domain now domain years_popular status whois_info)
  /\ score (score_domain now domain years_popular status whois_info) <> 1.
Proof.
  pose proof (raw_score_ge now domain years_popular status whois_info) as H.
  split; [exact H|].
  rewrite score_domain_score.
  apply (py_round_ge 3) in H. lia.
Qed.

(** The bound is reached: a long name with two hyphens on an active
    domain scores 5.0 - 1.0 - 0.5 - 0.5 = 3.0. *)
Example score_three_reached :
  score (@score_domain ascii_runtime (midnight 2026 11 3)
           (lit "xq-zzzzzz-zzzzzzz.org") [2004] (lit "active") empty_info)
  = 3.
Proof. vm_compute. reflexivity. Qed.

(** ** The scenario "ab.io" *)

Section AbIo.
Context {R : PyRuntime}.
Local Open Scope Q_scope.

Lemma py_int_15 (x : Q) : 15 <= x -> x < 16 -> py_int x = 15%Z.
Proof.
  intros Hlo Hhi. unfold py_int.
  assert (H0 : Qle_bool 0 x = true) by (apply Qle_bool_iff; lra).
  rewrite H0.
  pose proof (Qfloor_resp_le _ _ Hlo) as H1.
  change 15 with (inject_Z 15) in H1. rewrite Qfloor_Z in H1.
  pose proof (Qfloor_le x) as H2.
  assert (H3 : inject_Z (Qfloor x) < inject_Z 16)
    by (change (inject_Z 16) with 16; lra).
  rewrite <- Zlt_Qlt in H3. lia.
Qed.

Lemma age_block_established now w cs c t :
  creation_date w = Some cs ->
  cs <> [] ->
  fromisoformat cs = Some (Naive c) ->
  15 <= age_years now c -> age_years now c < 16 ->
  age_block now w t
  = (age_years now c, bump (3 # 2) (lit "Established domain (15 years)") t).
Proof.
  intros Hc Hne Hp Hlo Hhi. unfold age_block. rewrite Hc.
  destruct cs as [|x cs]; [congruence|].
  cbn [truthy or_empty]. rewrite Hp. cbv zeta.
  fold (age_years now c).
  assert (H20 : Qleb 20 (age_years now c) = false)
    by (apply Qleb_false; lra).
  assert (H10 : Qleb 10 (age_years now c) = true)
    by (apply Qleb_true; lra).
  rewrite H20, H10, (py_int_15 _ Hlo Hhi). reflexivity.
Qed.

Lemma popularity_block_six ys t :
  len ys = 6%Z ->
  popularity_block ys t
  = bump (3 # 2) (lit "Appeared in 6 years of top lists") t.
Proof. intros H. unfold popularity_block. rewrite H. reflexivity. Qed.

Lemma lower_ab : lower (lit "ab") = lit "ab".
Proof. rewrite lower_ascii; reflexivity. Qed.

Lemma brandability_block_ab t :
  brandability_block (lit "ab") t
  = bump (1 # 2) (lit "Good brandability (pronounceable, clean)") t.
Proof.
  unfold brandability_block.
  assert (Hd : filter isdigit (lit "ab") = []).
  { cbn. rewrite !isdigit_ascii by reflexivity. reflexivity. }
  rewrite Hd. reflexivity.
Qed.

Lemma raw_score_ab_io now ys w cs c :
  creation_date w = Some cs ->
  cs <> [] ->
  fromisoformat cs = Some (Naive c) ->
  15 <= age_years now c -> age_years now c < 16 ->
  len ys = 6%Z ->
  raw_score now (lit "ab.io") ys (lit "active") w
  = (age_years now c, 2%Z,
     (5 + (3 # 2) + 2 + (1 # 2) + (3 # 2) + (1 # 2) + - (1 # 2),
      ab_io_reasons)).
Proof.
  intros Hc Hne Hp Hlo Hhi Hlen. unfold raw_score.
  rewrite (age_block_established now w cs c _ Hc Hne Hp Hlo Hhi).
  change (hd [] (split (chr ".") (lit "ab.io"))) with (lit "ab").
  rewrite lower_ab, brandability_block_ab.
  rewrite (popularity_block_six ys _ Hlen).
  reflexivity.
Qed.

End AbIo.

(** C9, as stated, fails: for "ab.io", created 15 years before 2026-11-03,
    popular in 6 years and [active], the total before rounding is 10.5 and
    not 10.0, and the brandability rule fires among the adjustments. *)
Lemma ab_io_total_is_ten_and_a_half :
  let t := snd (@raw_score ascii_runtime (midnight 2026 11 3) (lit "ab.io")
                  [2000; 2001; 2002; 2003; 2004; 2005] (lit "active")
                  ab_io_whois) in
  (fst t == 21 # 2)%Q
  /\ ~ (fst t == 10)%Q
  /\ In (lit "Good brandability (pronounceable, clean)") (snd t).
Proof.
  vm_compute. repeat split; [discriminate | tauto].
Qed.

(** C9, amended: for "ab.io" with a creation date 15 years before the
    current time, 6 popular years and status [active], [score_domain]
    applies +1.5 (age), +2.0 (length), +0.5 (tld), +1.5 (popularity), +0.5
    (brandability) and -0.5 (active) to the base 5.0, a total of 10.5
    before rounding, and returns score 10 with value "$100,000+". *)
Theorem ab_io_scenario {R : PyRuntime} (now : Z) (years_popular : list Z)
    (whois_info : WhoisRecord) (created : str) (creation : Z) :
  creation_date whois_info = Some created ->
  created <> [] ->
  fromisoformat created = Some (Naive creation) ->
  (15 <= age_years now creation)%Q ->
  (age_years now creation < 16)%Q ->
  len years_popular = 6 ->
  let t := snd (raw_score now (lit "ab.io") years_popular (lit "active")
                  whois_info) in
  let r := score_domain now (lit "ab.io") years_popular (lit "active")
             whois_info in
  fst t = (5 + (3 # 2) + 2 + (1 # 2) + (3 # 2) + (1 # 2) + - (1 # 2))%Q
  /\ (fst t == 21 # 2)%Q
  /\ snd t = ab_io_reasons
  /\ score r = 10
  /\ estimated_value r = lit "$100,000+".
Proof.
  intros Hc Hne Hp Hlo Hhi Hlen t r. subst t r.
  unfold score_domain.
  rewrite (raw_score_ab_io now years_popular whois_info created creation
             Hc Hne Hp Hlo Hhi Hlen).
  repeat split.
Qed.

Lemma ab_io_scenario_witness :
  let t := snd (@raw_score ascii_runtime (midnight 2026 11 3) (lit "ab.io")
                  [2000; 2001; 2002; 2003; 2004; 2005] (lit "active")
                  ab_io_whois) in
  let r := @score_domain ascii_runtime (midnight 2026 11 3) (lit "ab.io")
             [2000; 2001; 2002; 2003; 2004; 2005] (lit "active")
             ab_io_whois in
  fst t = (5 + (3 # 2) + 2 + (1 # 2) + (3 # 2) + (1 # 2) + - (1 # 2))%Q
  /\ (fst t == 21 # 2)%Q
  /\ snd t = ab_io_reasons
  /\ score r = 10
  /\ estimated_value r = lit "$100,000+".
Proof.
  apply (@ab_io_scenario ascii_runtime) with
    (created := lit "2011-11-03")
    (creation := midnight 2011 11 3);
    try reflexivity; try discriminate.
Defined.

(** ** WHOIS normalisation *)

(** C8: [lookup_whois] never raises: whatever the lookup does it returns a
    record; when the lookup reports that there is no record
    ([PywhoisError]) and when it fails in any other way, the record
    returned has every field absent and no nameservers. *)
Theorem lookup_whois_never_raises {R : PyRuntime}
    (whois_query : str -> outcome (option whois_entry)) (domain : str) :
  let all_absent :=
    {| registrar := None; creation_date := None; expiration_date := None;
       name_servers := []; registrant := None; registrant_email := SNone |} in
  (exists info, lookup_whois whois_query domain = Return info)
  /\ (forall msg, whois_query domain = Raise (PywhoisError msg) ->
                  lookup_whois whois_query domain = Return all_absent)
  /\ (forall msg, whois_query domain = Raise (OtherException msg) ->
                  lookup_whois whois_query domain = Return all_absent).
Proof.
  intros all_absent. unfold lookup_whois, try_except. repeat split.
  - destruct (lookup_whois_body whois_query domain empty_info)
      as [[[]|[msg|msg]] info]; eauto.
  - intros msg H. unfold lookup_whois_body, bind, call. rewrite H.
    reflexivity.
  - intros msg H. unfold lookup_whois_body, bind, call. rewrite H.
    reflexivity.
Qed.

(** ** Sorting *)

Section SortFacts.
Context {A : Type} (leb : A -> A -> bool).

Let le (a b : A) : Prop := leb a b = true.

Hypothesis leb_total : forall a b, leb a b = true \/ leb b a = true.
Hypothesis leb_trans : forall a b c, le a b -> le b c -> le a c.

Lemma insert_sorted_perm (x : A) (l : list A) :
  Permutation (x :: l) (insert_sorted leb x l).
Proof.
  induction l as [|y l IH]; simpl; [apply Permutation_refl|].
  destruct (leb x y); [apply Permutation_refl|].
  eapply perm_trans; [apply perm_swap|]. apply perm_skip, IH.
Qed.

Lemma sorted_by_perm (l : list A) : Permutation l (sorted_by leb l).
Proof.
  induction l as [|x l IH]; simpl; [constructor|].
  eapply perm_trans; [apply perm_skip, IH|]. apply insert_sorted_perm.
Qed.

Lemma sorted_by_In (x : A) (l : list A) : In x (sorted_by leb l) <-> In x l.
Proof.
  split; apply Permutation_in;
    [apply Permutation_sym|]; apply sorted_by_perm.
Qed.

Lemma insert_sorted_sorted (x : A) (l : list A) :
  StronglySorted le l -> StronglySorted le (insert_sorted leb x l).
Proof.
  induction 1 as [|y l Hs IH Hall]; simpl.
  - repeat constructor.
  - destruct (leb x y) eqn:E.
    + constructor; [constructor; assumption|].
      constructor; [exact E|].
      eapply Forall_impl; [|exact Hall]. intros z Hz.
      exact (leb_trans x y z E Hz).
    + constructor; [exact IH|].
      assert (Hyx : le y x).
      { unfold le. destruct (leb_total x y) as [H1|H1]; [congruence|exact H1]. }
      eapply Permutation_Forall; [apply insert_sorted_perm|].
      constructor; [exact Hyx | exact Hall].
Qed.

Lemma sorted_by_sorted (l : list A) : StronglySorted le (sorted_by leb l).
Proof.
  induction l as [|x l IH]; simpl; [constructor|].
  apply insert_sorted_sorted, IH.
Qed.

End SortFacts.

Lemma str_leb_total (a b : str) : str_leb a b = true \/ str_leb b a = true.
Proof.
  revert b. induction a as [|x a IH]; intros [|y b]; simpl; auto.
  destruct (N.ltb_spec x y), (N.ltb_spec y x); auto; try lia.
  assert (x = y) by lia. subst. rewrite N.eqb_refl. apply IH.
Qed.

Lemma str_leb_trans (a b c : str) :
  str_leb a b = true -> str_leb b c = true -> str_leb a c = true.
Proof.
  revert b c. induction a as [|x a IH]; intros [|y b] [|z c]; simpl;
    try congruence.
  destruct (N.ltb_spec x y), (N.ltb_spec y z), (N.ltb_spec x z);
    try reflexivity; try lia;
    destruct (N.eqb_spec x y), (N.eqb_spec y z), (N.eqb_spec x z);
    try congruence; try lia.
  apply IH.
Qed.

Lemma str_leb_antisym (a b : str) :
  str_leb a b = true -> str_leb b a = true -> a = b.
Proof.
  revert b. induction a as [|x a IH]; intros [|y b]; simpl;
    try congruence.
  intros H1 H2.
  destruct (N.ltb_spec x y), (N.ltb_spec y x); try lia;
    destruct (N.eqb_spec x y), (N.eqb_spec y x);
    try discriminate; try lia.
  subst. f_equal. apply IH; assumption.
Qed.

Lemma Zleb_total (a b : Z) : (a <=? b) = true \/ (b <=? a) = true.
Proof. destruct (Z.leb_spec a b), (Z.leb_spec b a); auto; lia. Qed.

Lemma Zleb_trans (a b c : Z) :
  (a <=? b) = true -> (b <=? c) = true -> (a <=? c) = true.
Proof. rewrite !Z.leb_le. lia. Qed.

(** ** The domain index *)

Lemma str_eqb_refl (a : str) : str_eqb a a = true.
Proof. apply str_eqb_eq. reflexivity. Qed.

Lemma str_eqb_spec (a b : str) : reflect (a = b) (str_eqb a b).
Proof.
  destruct (str_eqb a b) eqn:E; constructor.
  - apply str_eqb_eq, E.
  - apply str_eqb_neq, E.
Qed.

Lemma nonempty_true {A} (l : list A) : nonempty l = true <-> l <> [].
Proof. destruct l; simpl; split; congruence. Qed.

(** A sorted list without duplicates is strictly ascending. *)
Lemma sorted_nodup_strict {A} (leb : A -> A -> bool) (l : list A) :
  StronglySorted (fun a b => leb a b = true) l ->
  NoDup l ->
  StronglySorted (fun a b => leb a b = true /\ a <> b) l.
Proof.
  induction 1 as [|x l Hs IH Hall]; intros Hnd; constructor;
    inversion Hnd as [|? ? Hnotin Hnd']; subst.
  - apply IH, Hnd'.
  - rewrite Forall_forall in *. intros z Hz. split; [apply Hall, Hz|].
    intros ->. contradiction.
Qed.

Lemma StronglySorted_weaken {A} (P Q : A -> A -> Prop) (l : list A) :
  (forall a b, P a b -> Q a b) -> StronglySorted P l -> StronglySorted Q l.
Proof.
  intros HPQ. induction 1 as [|x l Hs IH Hall]; constructor; [exact IH|].
  eapply Forall_impl; [|exact Hall]. intros b. apply HPQ.
Qed.

Lemma sorted_set_In (y : Z) (l : list Z) : In y (sorted_set l) <-> In y l.
Proof. unfold sorted_set. rewrite sorted_by_In. apply nodup_In. Qed.

Lemma sorted_set_strict (l : list Z) : StronglySorted Z.lt (sorted_set l).
Proof.
  unfold sorted_set.
  eapply StronglySorted_weaken;
    [|apply (sorted_nodup_strict Z.leb);
      [apply sorted_by_sorted; [apply Zleb_total | apply Zleb_trans]
      |eapply Permutation_NoDup; [apply sorted_by_perm | apply NoDup_nodup]]].
  intros a b [Hle Hne]. apply Z.leb_le in Hle. lia.
Qed.

Lemma sorted_set_nonempty (l : list Z) : l <> [] -> sorted_set l <> [].
Proof.
  destruct l as [|y l]; [congruence|]. intros _ E.
  assert (H : In y (sorted_set (y :: l))) by (apply sorted_set_In; left; reflexivity).
  rewrite E in H. exact H.
Qed.

(** Lookup after [setdefault(domain, []).append(year)]. *)
Lemma get_years_setdefault (d d' : str) (y : Z) (m : list (str * list Z)) :
  get_years (setdefault_append d y m) d'
  = if str_eqb d d'
    then Some (match get_years m d with Some ys => ys ++ [y] | None => [y] end)
    else get_years m d'.
Proof.
  induction m as [|[k ys] m IH]; simpl.
  - destruct (str_eqb_spec d d'); reflexivity.
  - destruct (str_eqb_spec k d) as [->|Hkd]; simpl.
    + destruct (str_eqb_spec d d'); reflexivity.
    + rewrite IH.
      destruct (str_eqb_spec k d') as [->|Hkd'];
        destruct (str_eqb_spec d d'); try reflexivity.
      subst. contradiction.
Qed.

Lemma setdefault_keys (d d' : str) (y : Z) (m : list (str * list Z)) :
  In d' (map fst (setdefault_append d y m)) <-> d' = d \/ In d' (map fst m).
Proof.
  induction m as [|[k ys] m IH]; simpl.
  - intuition congruence.
  - destruct (str_eqb_spec k d) as [->|Hkd]; simpl.
    + intuition congruence.
    + rewrite IH. intuition congruence.
Qed.

Lemma setdefault_NoDup (d : str) (y : Z) (m : list (str * list Z)) :
  NoDup (map fst m) -> NoDup (map fst (setdefault_append d y m)).
Proof.
  induction m as [|[k ys] m IH]; simpl; intros Hnd.
  - repeat constructor. intros [].
  - inversion Hnd as [|? ? Hnotin Hnd']; subst.
    destruct (str_eqb_spec k d) as [->|Hkd]; simpl.
    + constructor; assumption.
    + constructor; [|apply IH, Hnd'].
      rewrite setdefault_keys. intuition congruence.
Qed.

(** In a dictionary, an item is what the lookup of its key gives. *)
Lemma get_years_In (m : list (str * list Z)) (d : str) (ys : list Z) :
  NoDup (map fst m) ->
  (In (d, ys) m <-> get_years m d = Some ys).
Proof.
  induction m as [|[k zs] m IH]; simpl; intros Hnd.
  - split; [intros [] | discriminate].
  - inversion Hnd as [|? ? Hnotin Hnd']; subst.
    destruct (str_eqb_spec k d) as [->|Hkd].
    + split.
      * intros [E|Hin]; [congruence|].
        exfalso. apply Hnotin. apply (in_map fst) in Hin. exact Hin.
      * intros E. left. congruence.
    + rewrite <- (IH Hnd'). split; [intros [E|Hin] | auto].
      * congruence.
      * exact Hin.
Qed.

Lemma get_years_key (m : list (str * list Z)) (d : str) :
  In d (map fst m) <-> exists ys, get_years m d = Some ys.
Proof.
  induction m as [|[k zs] m IH]; simpl.
  - split; [intros [] | intros [ys H]; discriminate].
  - destruct (str_eqb_spec k d) as [->|Hkd].
    + split; eauto.
    + rewrite <- IH. intuition congruence.
Qed.

Section DomainIndex.
Context {R : PyRuntime} {T : PyText}.

(** Year [y] is recorded for domain [d]. *)
Let years_in (m : list (str * list Z)) (d : str) (y : Z) : Prop :=
  exists ys, get_years m d = Some ys /\ In y ys.

(** The dictionary under construction: distinct, non-empty keys. *)
Let well_formed (m : list (str * list Z)) : Prop :=
  NoDup (map fst m)
  /\ forall d ys, get_years m d = Some ys -> d <> [] /\ ys <> [].

Lemma years_in_setdefault d0 y0 m d y :
  years_in (setdefault_append d0 y0 m) d y
  <-> years_in m d y \/ (d = d0 /\ y = y0).
Proof.
  unfold years_in. rewrite get_years_setdefault.
  destruct (str_eqb_spec d0 d) as [->|Hne].
  - destruct (get_years m d) as [ys|].
    + split.
      * intros [zs [E Hin]]. injection E as <-.
        apply in_app_or in Hin. destruct Hin as [Hin|[<-|[]]]; eauto.
      * intros [[zs [E Hin]]|[_ ->]].
        -- injection E as <-. eexists; split; [reflexivity|].
           apply in_or_app; auto.
        -- eexists; split; [reflexivity|]. apply in_or_app; simpl; auto.
    + split.
      * intros [zs [E Hin]]. injection E as <-.
        destruct Hin as [<-|[]]; auto.
      * intros [[zs [E _]]|[_ ->]]; [discriminate|].
        eexists; split; [reflexivity|]. simpl; auto.
  - split; [auto|]. intros [H|[-> _]]; [exact H | congruence].
Qed.

Lemma well_formed_setdefault d0 y0 m :
  d0 <> [] -> well_formed m -> well_formed (setdefault_append d0 y0 m).
Proof.
  intros Hd [Hnd Hne]. split; [apply setdefault_NoDup, Hnd|].
  intros d ys. rewrite get_years_setdefault.
  destruct (str_eqb_spec d0 d) as [->|Hdd]; [|apply Hne].
  intros E. injection E as <-. split; [exact Hd|].
  destruct (get_years m d); [|discriminate].
  intros E. apply app_eq_nil in E. destruct E; discriminate.
Qed.

Lemma index_year_spec y0 ds m d y :
  years_in (index_year y0 ds m) d y
  <-> years_in m d y
      \/ (y = y0 /\ d <> [] /\ exists raw, In raw ds /\ normalise raw = d).
Proof.
  unfold index_year. revert m.
  induction ds as [|raw ds IH]; intros m; simpl.
  - split; [auto|]. intros [H|[_ [_ [raw [[] _]]]]]. exact H.
  - rewrite IH. destruct (nonempty (normalise raw)) eqn:E.
    + apply nonempty_true in E. rewrite years_in_setdefault. split.
      * intros [[H|[-> ->]]|[-> [Hd [r [Hr Hn]]]]]; eauto 8.
      * intros [H|[-> [Hd [r [[<-|Hr] Hn]]]]]; eauto 8.
    + split.
      * intros [H|[-> [Hd [r [Hr Hn]]]]]; eauto 8.
      * intros [H|[-> [Hd [r [[<-|Hr] Hn]]]]]; eauto 8.
        exfalso. apply Hd. rewrite <- Hn.
        destruct (normalise raw); [reflexivity|discriminate].
Qed.

Lemma index_year_well_formed y0 ds m :
  well_formed m -> well_formed (index_year y0 ds m).
Proof.
  unfold index_year. revert m.
  induction ds as [|raw ds IH]; intros m Hwf; simpl; [exact Hwf|].
  apply IH. destruct (nonempty (normalise raw)) eqn:E; [|exact Hwf].
  apply well_formed_setdefault; [apply nonempty_true, E | exact Hwf].
Qed.

(** The outer loop over the years. *)
Let scan (dby : list (Z * list str)) (quick : bool) (years : list Z)
    (m : list (str * list Z)) : list (str * list Z) :=
  fold_left (fun m year => index_year year (domains_for dby quick year) m)
            years m.

Lemma scan_spec dby quick years m d y :
  years_in (scan dby quick years m) d y
  <-> years_in m d y
      \/ (In y years /\ d <> []
          /\ exists raw, In raw (domains_for dby quick y) /\ normalise raw = d).
Proof.
  unfold scan. revert m.
  induction years as [|y0 years IH]; intros m; simpl.
  - split; [auto|]. intros [H|[[] _]]. exact H.
  - rewrite IH, index_year_spec. split.
    + intros [[H|[-> H]]|[Hy H]]; auto.
    + intros [H|[[<-|Hy] H]]; auto.
Qed.

Lemma scan_well_formed dby quick years m :
  well_formed m -> well_formed (scan dby quick years m).
Proof.
  unfold scan. revert m.
  induction years as [|y0 years IH]; intros m Hwf; simpl; [exact Hwf|].
  apply IH, index_year_well_formed, Hwf.
Qed.

Lemma well_formed_nil : well_formed [].
Proof. split; [constructor | discriminate]. Qed.

Lemma map_sorted_set_keys (m : list (str * list Z)) :
  map fst (map (fun '(d, ys) => (d, sorted_set ys)) m) = map fst m.
Proof.
  rewrite map_map. apply map_ext. intros [d ys]. reflexivity.
Qed.

Lemma get_years_map_sorted_set (m : list (str * list Z)) (d : str) :
  get_years (map (fun '(d, ys) => (d, sorted_set ys)) m) d
  = option_map sorted_set (get_years m d).
Proof.
  induction m as [|[k ys] m IH]; simpl; [reflexivity|].
  destruct (str_eqb k d); [reflexivity | exact IH].
Qed.

(** What [build_domain_index] returns, item by item. *)
Lemma build_domain_index_items dby filter_year quick d ys :
  In (d, ys) (snd (build_domain_index dby filter_year quick)) ->
  d <> [] /\ ys <> [] /\ StronglySorted Z.lt ys
  /\ forall y,
       In y ys
       <-> In y (years_to_scan dby filter_year)
           /\ exists raw,
                In raw (domains_for dby quick y) /\ normalise raw = d.
Proof.
  unfold build_domain_index. cbn [snd].
  fold (scan dby quick (years_to_scan dby filter_year) []).
  pose proof (scan_well_formed dby quick (years_to_scan dby filter_year) []
                well_formed_nil) as [Hnd Hne].
  set (m := scan dby quick (years_to_scan dby filter_year) []) in *.
  intros Hin.
  apply get_years_In in Hin; [|rewrite map_sorted_set_keys; exact Hnd].
  rewrite get_years_map_sorted_set in Hin.
  destruct (get_years m d) as [zs|] eqn:E; [|discriminate].
  injection Hin as <-.
  destruct (Hne d zs E) as [Hd Hzs].
  split; [exact Hd|].
  split; [apply sorted_set_nonempty, Hzs|].
  split; [apply sorted_set_strict|].
  intros y. split.
  - intros Hy. apply (proj1 (sorted_set_In _ _)) in Hy.
    assert (H : years_in m d y) by (exists zs; split; assumption).
    apply scan_spec in H. destruct H as [[ws [Hw _]]|[Hy' [_ H]]];
      [discriminate | auto].
  - intros [Hy H].
    assert (H' : years_in m d y) by (apply scan_spec; right; auto).
    destruct H' as [ws [Hw Hin]]. rewrite E in Hw. injection Hw as <-.
    apply sorted_set_In, Hin.
Qed.

Lemma build_domain_index_complete dby filter_year quick y raw :
  In y (years_to_scan dby filter_year) ->
  In raw (domains_for dby quick y) ->
  normalise raw <> [] ->
  exists ys,
    In (normalise raw, ys) (snd (build_domain_index dby filter_year quick))
    /\ In y ys.
Proof.
  intros Hy Hraw Hne. unfold build_domain_index. cbn [snd].
  fold (scan dby quick (years_to_scan dby filter_year) []).
  pose proof (scan_well_formed dby quick (years_to_scan dby filter_year) []
                well_formed_nil) as [Hnd _].
  set (m := scan dby quick (years_to_scan dby filter_year) []) in *.
  assert (H : years_in m (normalise raw) y)
    by (apply scan_spec; right; eauto).
  destruct H as [zs [E Hin]].
  exists (sorted_set zs). split; [|apply sorted_set_In, Hin].
  apply get_years_In; [rewrite map_sorted_set_keys; exact Hnd|].
  rewrite get_years_map_sorted_set, E. reflexivity.
Qed.

Lemma build_domain_index_keys dby filter_year quick :
  NoDup (map fst (snd (build_domain_index dby filter_year quick))).
Proof.
  unfold build_domain_index. cbn [snd].
  fold (scan dby quick (years_to_scan dby filter_year) []).
  rewrite map_sorted_set_keys.
  apply (scan_well_formed dby quick (years_to_scan dby filter_year) []
           well_formed_nil).
Qed.

End DomainIndex.



(** Every listed name of a scanned year whose normal form is not empty is
    in the index: its normal form is among the unique domains and carries
    that year. *)
Theorem domain_index_complete {R : PyRuntime} {T : PyText}
    (domains_by_year : list (Z * list str)) (filter_year : option Z)
    (quick : bool) (y : Z) (raw : str) :
  In y (years_to_scan domains_by_year filter_year) ->
  In raw (domains_for domains_by_year quick y) ->
  normalise raw <> [] ->
  let index := build_domain_index domains_by_year filter_year quick in
  In (normalise raw) (fst index)
  /\ exists ys, In (normalise raw, ys) (snd index) /\ In y ys.
Proof.
  intros Hy Hraw Hne index.
  destruct (build_domain_index_complete _ _ _ _ _ Hy Hraw Hne)
    as [ys [Hin Hys]].
  split; [|exists ys; split; assumption].
  unfold index, build_domain_index in *. cbn [fst snd] in *.
  apply sorted_by_In. apply (in_map fst) in Hin. exact Hin.
Qed.

Lemma domain_index_complete_witness :
  let index :=
    @build_domain_index ascii_runtime ascii_text sample_lists None true in
  In (@normalise ascii_runtime ascii_text (lit " Example.COM ")) (fst index)
  /\ exists ys,
       In (@normalise ascii_runtime ascii_text (lit " Example.COM "), ys)
          (snd index)
       /\ In 2005 ys.
Proof.
  apply (@domain_index_complete ascii_runtime ascii_text sample_lists None
           true 2005 (lit " Example.COM ")).
  - vm_compute. tauto.
  - vm_compute. tauto.
  - vm_compute. discriminate.
Defined.

(** The list of unique domains is strictly ascending in code-point order,
    so it has no repeats, and it holds exactly the keys of the mapping,
    which are distinct. *)
Theorem unique_domains_sorted {R : PyRuntime} {T : PyText}
    (domains_by_year : list (Z * list str)) (filter_year : option Z)
    (quick : bool) :
  let index := build_domain_index domains_by_year filter_year quick in
  StronglySorted (fun a b => str_leb a b = true /\ a <> b) (fst index)
  /\ NoDup (map fst (snd index))
  /\ forall d, In d (fst index) <-> In d (map fst (snd index)).
Proof.
  intros index.
  pose proof (build_domain_index_keys domains_by_year filter_year quick)
    as Hnd.
  fold index in Hnd.
  assert (Hfst : fst index = sorted_by str_leb (map fst (snd index)))
    by reflexivity.
  rewrite Hfst. split; [|split; [exact Hnd|]].
  - apply sorted_nodup_strict.
    + apply sorted_by_sorted; [apply str_leb_total | apply str_leb_trans].
    + eapply Permutation_NoDup; [apply sorted_by_perm | exact Hnd].
  - intros d. apply sorted_by_In.
Qed.

(** With a year filter other than 0, every indexed domain carries exactly
    that year. *)
Theorem filter_year_single {R : PyRuntime} {T : PyText}
    (domains_by_year : list (Z * list str)) (year : Z) (quick : bool) :
  year <> 0 ->
  Forall (fun item => snd item = [year])
         (snd (build_domain_index domains_by_year (Some year) quick)).
Proof.
  intros Hnz. apply Forall_forall. intros [d ys] Hin. cbn [snd].
  destruct (build_domain_index_items _ _ _ _ _ Hin) as [_ [Hne [Hs Hy]]].
  assert (Hall : forall y, In y ys -> y = year).
  { intros y Hyin. apply Hy in Hyin. destruct Hyin as [Hscan _].
    unfold years_to_scan in Hscan.
    destruct (Z.eqb_spec year 0); [contradiction|].
    destruct Hscan as [E|[]]. congruence. }
  destruct ys as [|a [|b ys]]; [congruence | |].
  - f_equal. apply Hall. left; reflexivity.
  - exfalso. inversion Hs as [|? ? _ Hlt]; subst.
    rewrite Forall_forall in Hlt.
    assert (a < b) by (apply Hlt; left; reflexivity).
    rewrite (Hall a), (Hall b) in H by (simpl; auto). lia.
Qed.

Lemma filter_year_single_witness :
  Forall (fun item => snd item = [2004])
         (snd (@build_domain_index ascii_runtime ascii_text sample_lists
                 (Some 2004) false)).
Proof.
  apply (@filter_year_single ascii_runtime ascii_text sample_lists 2004 false).
  discriminate.
Defined.

Lemma In_firstn {A} (n : nat) (x : A) (l : list A) :
  In x (firstn n l) -> In x l.
Proof.
  intros H. rewrite <- (firstn_skipn n l). apply in_or_app. left. exact H.
Qed.

(** Quick mode only leaves things out: every item of the quick index is an
    item of the full index with at least the same years. *)
Theorem quick_is_sub_index {R : PyRuntime} {T : PyText}
    (domains_by_year : list (Z * list str)) (filter_year : option Z)
    (d : str) (ys : list Z) :
  In (d, ys) (snd (build_domain_index domains_by_year filter_year true)) ->
  exists ys',
    In (d, ys') (snd (build_domain_index domains_by_year filter_year false))
    /\ incl ys ys'.
Proof.
  intros Hin.
  destruct (build_domain_index_items _ _ _ _ _ Hin) as [Hd [Hne [_ Hy]]].
  assert (Hfull : forall y, In y ys ->
            In y (years_to_scan domains_by_year filter_year)
            /\ exists raw, In raw (domains_for domains_by_year false y)
                           /\ normalise raw = d).
  { intros y Hyin. apply Hy in Hyin.
    destruct Hyin as [Hscan [raw [Hraw Hn]]].
    split; [exact Hscan|]. exists raw. split; [|exact Hn].
    unfold domains_for in *. cbn [negb] in *.
    exact (In_firstn 5 raw _ Hraw). }
  destruct ys as [|y0 ys0]; [congruence|].
  destruct (Hfull y0 (or_introl eq_refl)) as [Hscan [raw [Hraw Hn]]].
  assert (Hnn : normalise raw <> []) by (rewrite Hn; exact Hd).
  destruct (build_domain_index_complete domains_by_year filter_year false
              y0 raw Hscan Hraw Hnn) as [ys' [Hin' _]].
  rewrite Hn in Hin'. exists ys'. split; [exact Hin'|].
  destruct (build_domain_index_items _ _ _ _ _ Hin') as [_ [_ [_ Hy']]].
  intros y Hyin. apply Hy'. apply Hfull, Hyin.
Qed.

Lemma quick_is_sub_index_witness :
  exists ys',
    In (lit "example.com", ys')
       (snd (@build_domain_index ascii_runtime ascii_text sample_lists None
               false))
    /\ incl [2004; 2005] ys'.
Proof.
  apply (@quick_is_sub_index ascii_runtime ascii_text sample_lists None).
  vm_compute. tauto.
Defined.

(** ** HTTP probing *)

Ltac break_ifs :=
  repeat match goal with
         | |- context [if ?b then _ else _] => destruct b
         end.

Section Probe.
Context {R : PyRuntime} {T : PyText} {W : WebLib}.

(** The analyser writes the parked flag, the for-sale flag and the
    platform, nothing else. *)
Lemma analyse_frame (r : ProbeResult) (body raw : str) :
  let r' := _analyse_page_content r body raw in
  http_status_code r' = http_status_code r
  /\ page_title r' = page_title r
  /\ body_text r' = body_text r
  /\ redirect_url r' = redirect_url r
  /\ final_url r' = final_url r
  /\ error r' = error r.
Proof.
  unfold _analyse_page_content. cbv zeta.
  destruct (is_real_site r body); [repeat split|].
  break_ifs; repeat split.
Qed.

(** The analyser never clears a flag. *)
Lemma analyse_monotone (r : ProbeResult) (body raw : str) :
  let r' := _analyse_page_content r body raw in
  (is_parked r = true -> is_parked r' = true)
  /\ (is_for_sale r = true -> is_for_sale r' = true).
Proof.
  unfold _analyse_page_content. cbv zeta.
  destruct (is_real_site r body); [split; auto|].
  break_ifs; split; simpl; auto.
Qed.

(** A platform is recorded only together with the for-sale flag, on a
    thin page that names it. *)
Lemma analyse_platform (r : ProbeResult) (body raw : str) (p : str) :
  sale_platform r = None ->
  sale_platform (_analyse_page_content r body raw) = Some p ->
  is_for_sale (_analyse_page_content r body raw) = true
  /\ In p SALE_PLATFORMS /\ contains p body = true
  /\ stripped_len body < 2000.
Proof.
  intros Hnone. unfold _analyse_page_content. cbv zeta.
  destruct (is_real_site r body); [congruence|].
  destruct (find (fun q => contains q body) SALE_PLATFORMS) as [q|] eqn:Hf.
  - apply find_some in Hf. destruct Hf as [Hin Hc].
    destruct (truthy (Some q) && (stripped_len body <? 2000)) eqn:Hthin.
    + apply andb_true_iff in Hthin. destruct Hthin as [_ Hthin].
      apply Z.ltb_lt in Hthin.
      break_ifs; simpl; intros E; injection E as <-; auto.
    + break_ifs; simpl; congruence.
  - cbn [truthy andb]. break_ifs; simpl; congruence.
Qed.

Lemma len_firstn_le {A} (n : nat) (l : list A) :
  len (firstn n l) <= Z.of_nat n.
Proof. unfold len. apply Nat2Z.inj_le, firstn_le_length. Qed.

(** An error description of at most 200 characters, or none. *)
Let short_error (e : option str) : Prop :=
  match e with Some m => len m <= 200 | None => True end.

(** No response came yet: only the error field may be written. *)
Let failed (r : ProbeResult) : Prop :=
  exists e, short_error e /\ r = set_error e initial_result.

(** A response came and was evaluated, once. *)
Let answered (http_get : str -> Z -> http_outcome) (domain : str)
    (r : ProbeResult) : Prop :=
  exists resp e,
    (exists url attempt, http_get url attempt = Responded resp)
    /\ short_error e
    /\ r = on_response domain resp (set_error e initial_result).

Lemma probe_attempt_shape http_get domain url last_url attempt st :
  failed (fst st) ->
  match probe_attempt http_get domain url last_url attempt st with
  | (Returned, st') => failed (fst st') \/ answered http_get domain (fst st')
  | (_, st') => failed (fst st')
  end.
Proof.
  destruct st as [r tr]. cbn [fst]. intros [e [He ->]].
  unfold probe_attempt.
  assert (Hfix : forall m, len m <= 200 ->
            failed (set_error (Some m) (set_error e initial_result)))
    by (intros m Hm; exists (Some m); split; [exact Hm | reflexivity]).
  assert (Hkeep : failed (set_error e initial_result))
    by (exists e; split; [exact He | reflexivity]).
  destruct (http_get url attempt) as [resp|[| | |msg]] eqn:Hget.
  - right. exists resp, e. split; [exists url, attempt; exact Hget|].
    split; [exact He | reflexivity].
  - destruct (startswith _ url); cbn [fst];
      [exact Hkeep | apply Hfix; vm_compute; discriminate].
  - destruct (attempt =? MAX_RETRIES); [destruct (str_eqb url last_url)|];
      cbn [fst]; try exact Hkeep. apply Hfix. vm_compute. discriminate.
  - destruct (attempt =? MAX_RETRIES); [destruct (str_eqb url last_url)|];
      cbn [fst]; try exact Hkeep. apply Hfix. vm_compute. discriminate.
  - assert (Hm : failed (set_error (Some (firstn 200 msg))
                           (set_error e initial_result)))
      by (apply Hfix, (len_firstn_le 200)).
    destruct (attempt =? MAX_RETRIES); [destruct (str_eqb url last_url)|];
      cbn [andb fst]; auto.
Qed.

Lemma retry_loop_shape http_get domain url last_url attempts st :
  failed (fst st) ->
  match retry_loop http_get domain url last_url attempts st with
  | (true, st') => failed (fst st') \/ answered http_get domain (fst st')
  | (false, st') => failed (fst st')
  end.
Proof.
  revert st. induction attempts as [|a rest IH]; intros st Hst; simpl.
  - exact Hst.
  - pose proof (probe_attempt_shape http_get domain url last_url a st Hst)
      as H.
    destruct (probe_attempt http_get domain url last_url a st)
      as [[| |] st']; [exact H | exact H | apply IH, H].
Qed.

Lemma url_loop_shape http_get domain last_url urls st :
  failed (fst st) ->
  let st' := url_loop http_get domain last_url urls st in
  failed (fst st') \/ answered http_get domain (fst st').
Proof.
  revert st. induction urls as [|u rest IH]; intros st Hst;
    cbn [url_loop]; cbv zeta.
  - left. exact Hst.
  - pose proof (retry_loop_shape http_get domain u last_url
                  (range 1 (MAX_RETRIES + 1)) st Hst) as H.
    destruct (retry_loop http_get domain u last_url
                (range 1 (MAX_RETRIES + 1)) st) as [[|] st'];
      [exact H | exact (IH st' H)].
Qed.

(** The result of a probe is the initial dictionary with at most an error
    written, or one response evaluated on such a dictionary. *)
Lemma probe_http_shape http_get domain :
  let r := fst (probe_http http_get domain) in
  failed r \/ answered http_get domain r.
Proof.
  unfold probe_http. apply url_loop_shape.
  exists None. split; [exact I | reflexivity].
Qed.

(** What one evaluated response leaves in the result. *)
Lemma on_response_fields domain resp e :
  let r := on_response domain resp (set_error e initial_result) in
  http_status_code r = Some (resp_status_code resp)
  /\ final_url r = Some (resp_url resp)
  /\ error r = e
  /\ redirect_url r
     = (if str_eqb (clean_host (netloc (resp_url resp))) (clean_host domain)
        then None else Some (resp_url resp))
  /\ len (or_empty (page_title r)) <= 200
  /\ len (body_text r) <= 5000
  /\ implb (is_for_sale r) (is_parked r) = true
  /\ (forall p, sale_platform r = Some p ->
                is_for_sale r = true /\ In p SALE_PLATFORMS)
  /\ (resp_status_code resp <> 200 ->
      is_parked r = false /\ is_for_sale r = false
      /\ sale_platform r = None /\ page_title r = None /\ body_text r = []).
Proof.
  intros r.
  pose (r0 := set_final_url (Some (resp_url resp))
                (set_http_status_code (Some (resp_status_code resp))
                   (set_error e initial_result))).
  pose (r1 := if negb (str_eqb (clean_host (netloc (resp_url resp)))
                               (clean_host domain))
              then set_redirect_url (Some (resp_url resp)) r0 else r0).
  pose (r2 := if truthy (soup_title (resp_text resp))
              then set_page_title
                     (Some (firstn 200
                              (strip (or_empty (soup_title (resp_text resp))))))
                     r1
              else r1).
  pose (body := lower (soup_text (resp_text resp))).
  pose (r3 := set_body_text (firstn 5000 body) r2).
  assert (Er : r = if (resp_status_code resp =? 200)
                      && nonempty (resp_text resp)
                   then _analyse_page_content r3 body
                          (lower (resp_text resp))
                   else r1) by reflexivity.
  clearbody r.
  assert (H1 : http_status_code r1 = Some (resp_status_code resp)
               /\ final_url r1 = Some (resp_url resp) /\ error r1 = e
               /\ redirect_url r1
                  = (if str_eqb (clean_host (netloc (resp_url resp)))
                                (clean_host domain)
                     then None else Some (resp_url resp))
               /\ page_title r1 = None /\ body_text r1 = []
               /\ is_parked r1 = false /\ is_for_sale r1 = false
               /\ sale_platform r1 = None).
  { subst r1 r0. destruct (str_eqb _ _); repeat split. }
  destruct H1 as [Hc [Hf [He [Hr [Ht [Hb [Hp [Hs Hpl]]]]]]]].
  assert (H3 : http_status_code r3 = http_status_code r1
               /\ final_url r3 = final_url r1 /\ error r3 = error r1
               /\ redirect_url r3 = redirect_url r1
               /\ len (or_empty (page_title r3)) <= 200
               /\ body_text r3 = firstn 5000 body
               /\ is_parked r3 = false /\ is_for_sale r3 = false
               /\ sale_platform r3 = None).
  { subst r3 r2. clearbody r1 body.
    destruct (truthy _); cbn; repeat split; auto.
    - apply (len_firstn_le 200).
    - rewrite Ht. vm_compute. discriminate. }
  destruct H3 as [Hc3 [Hf3 [He3 [Hr3 [Ht3 [Hb3 [Hp3 [Hs3 Hpl3]]]]]]]].
  clearbody r3 r1 body.
  destruct (Z.eqb_spec (resp_status_code resp) 200) as [E200|N200];
    cbn [andb] in Er;
    [destruct (nonempty (resp_text resp))|]; subst r.
  - destruct (analyse_frame r3 body (lower (resp_text resp)))
      as [Fc [Ft [Fb [Fr [Ff Fe]]]]].
    rewrite Fc, Ft, Fb, Fr, Ff, Fe, Hc3, Hf3, He3, Hr3, Hb3.
    split; [exact Hc|]. split; [exact Hf|]. split; [exact He|].
    split; [exact Hr|]. split; [exact Ht3|].
    split; [apply (len_firstn_le 5000)|].
    split; [apply analyse_preserves_for_sale_parked; rewrite Hs3;
            reflexivity|].
    split; [|intros N; contradiction].
    intros p Hq.
    destruct (analyse_platform r3 body _ p Hpl3 Hq) as [Hfs [Hin _]].
    split; assumption.
  - rewrite Ht, Hb, Hp, Hs, Hpl. repeat split; auto;
      try (vm_compute; discriminate); congruence.
  - rewrite Ht, Hb, Hp, Hs, Hpl. repeat split; auto;
      try (vm_compute; discriminate); congruence.
Qed.

(** *** What the probe does to the network *)

Lemma requests_app (a b : list event) :
  requests (a ++ b) = requests a ++ requests b.
Proof. apply flat_map_app. Qed.

Lemma seconds_slept_app (a b : list event) :
  seconds_slept (a ++ b) = seconds_slept a + seconds_slept b.
Proof.
  induction a as [|[u|s] a IH]; simpl; [reflexivity | exact IH | lia].
Qed.

(** One attempt makes one request and pauses at most once, for a second,
    and never after the last attempt on a URL that is not the last. *)
Lemma probe_attempt_trace http_get domain url last_url attempt st :
  let st' := snd (probe_attempt http_get domain url last_url attempt st) in
  exists pause,
    snd st' = snd st ++ Get url :: pause
    /\ (pause = []
        \/ (pause = [Sleep 1]
            /\ ((attempt =? MAX_RETRIES) = false
                \/ str_eqb url last_url = true))).
Proof.
  destruct st as [r tr]. unfold probe_attempt.
  destruct (http_get url attempt) as [resp|[| | |msg]].
  - exists []. cbn [snd]. auto.
  - destruct (startswith _ url); exists []; cbn [snd]; auto.
  - destruct (attempt =? MAX_RETRIES); [destruct (str_eqb url last_url) eqn:E|];
      cbn [snd]; rewrite <- ?app_assoc;
      (exists [Sleep 1]; split; [reflexivity | auto])
      || (exists []; auto).
  - destruct (attempt =? MAX_RETRIES); [destruct (str_eqb url last_url) eqn:E|];
      cbn [snd]; rewrite <- ?app_assoc;
      (exists [Sleep 1]; split; [reflexivity | auto])
      || (exists []; auto).
  - destruct (attempt =? MAX_RETRIES); [destruct (str_eqb url last_url) eqn:E|];
      cbn [snd andb]; rewrite <- ?app_assoc;
      (exists [Sleep 1]; split; [reflexivity | auto])
      || (exists []; auto).
Qed.

(** The attempts on one URL: one or two requests of it, and pauses of at
    most two seconds, one if the URL is not the last. *)
Lemma retry_loop_trace http_get domain url last_url st :
  let st' := snd (retry_loop http_get domain url last_url
                    (range 1 (MAX_RETRIES + 1)) st) in
  exists added,
    snd st' = snd st ++ added
    /\ (requests added = [url] \/ requests added = [url; url])
    /\ 0 <= seconds_slept added
       <= (if str_eqb url last_url then 2 else 1).
Proof.
  change (range 1 (MAX_RETRIES + 1)) with [1; 2]. cbn [retry_loop].
  destruct (probe_attempt_trace http_get domain url last_url 1 st)
    as [p1 [E1 H1]].
  destruct (probe_attempt http_get domain url last_url 1 st) as [fl1 st1].
  cbn [snd] in E1.
  assert (Hp1 : requests (Get url :: p1) = [url]
                /\ 0 <= seconds_slept (Get url :: p1) <= 1)
    by (destruct H1 as [->|[-> _]]; simpl; split; try reflexivity; lia).
  assert (Hone : exists added,
             snd st1 = snd st ++ added
             /\ (requests added = [url] \/ requests added = [url; url])
             /\ 0 <= seconds_slept added
                <= (if str_eqb url last_url then 2 else 1)).
  { exists (Get url :: p1). split; [exact E1|]. split; [tauto|].
    destruct (str_eqb url last_url); lia. }
  destruct fl1; cbn [snd]; try exact Hone.
  destruct (probe_attempt_trace http_get domain url last_url 2 st1)
    as [p2 [E2 H2]].
  destruct (probe_attempt http_get domain url last_url 2 st1) as [fl2 st2].
  cbn [snd] in E2.
  assert (Hst2 : snd st2 = snd st ++ (Get url :: p1) ++ Get url :: p2)
    by (rewrite E2, E1, <- app_assoc; reflexivity).
  assert (Hboth : exists added,
             snd st2 = snd st ++ added
             /\ (requests added = [url] \/ requests added = [url; url])
             /\ 0 <= seconds_slept added
                <= (if str_eqb url last_url then 2 else 1)).
  { exists ((Get url :: p1) ++ Get url :: p2). split; [exact Hst2|].
    rewrite requests_app, seconds_slept_app.
    destruct Hp1 as [-> Hs1].
    assert (Hp2 : requests (Get url :: p2) = [url]
                  /\ 0 <= seconds_slept (Get url :: p2)
                     <= (if str_eqb url last_url then 1 else 0)).
    { destruct H2 as [->|[-> [Hmax|Hlast]]].
      - split; [reflexivity|]. change (seconds_slept [Get url]) with 0.
        destruct (str_eqb url last_url); lia.
      - discriminate Hmax.
      - rewrite Hlast. split; [reflexivity|].
        change (seconds_slept [Get url; Sleep 1]) with 1. lia. }
    destruct Hp2 as [-> Hs2]. split; [right; reflexivity|].
    destruct (str_eqb url last_url); lia. }
  destruct fl2; cbn [snd]; exact Hboth.
Qed.

(** The whole probe: https first, at most four requests, at most three
    seconds of pauses. *)
Lemma probe_http_trace http_get domain :
  let trace := snd (probe_http http_get domain) in
  let https := lit "https://" ++ domain in
  let http := lit "http://" ++ domain in
  (requests trace = [https] \/ requests trace = [https; https]
   \/ requests trace = [https; http] \/ requests trace = [https; http; http]
   \/ requests trace = [https; https; http]
   \/ requests trace = [https; https; http; http])
  /\ 0 <= seconds_slept trace <= 3.
Proof.
  unfold probe_http. cbn [last url_loop].
  set (https := lit "https://" ++ domain).
  set (http := lit "http://" ++ domain).
  destruct (retry_loop_trace http_get domain https http (initial_result, []))
    as [a1 [E1 [Hr1 Hs1]]].
  assert (Hnl : str_eqb https http = false) by reflexivity.
  rewrite Hnl in Hs1.
  destruct (retry_loop http_get domain https http _ (initial_result, []))
    as [b1 st1].
  cbn [snd app] in E1.
  destruct b1.
  - cbv zeta. rewrite E1. split; [|lia]. destruct Hr1 as [->| ->]; auto.
  - destruct (retry_loop_trace http_get domain http http st1)
      as [a2 [E2 [Hr2 Hs2]]].
    assert (Hl : str_eqb http http = true) by apply str_eqb_refl.
    rewrite Hl in Hs2.
    destruct (retry_loop http_get domain http http _ st1) as [b2 st2].
    cbn [snd] in E2.
    assert (E : snd st2 = a1 ++ a2) by (rewrite E2, E1; reflexivity).
    assert (Hfin : (requests (snd st2) = [https]
                    \/ requests (snd st2) = [https; https]
                    \/ requests (snd st2) = [https; http]
                    \/ requests (snd st2) = [https; http; http]
                    \/ requests (snd st2) = [https; https; http]
                    \/ requests (snd st2) = [https; https; http; http])
                   /\ 0 <= seconds_slept (snd st2) <= 3).
    { rewrite E, requests_app, seconds_slept_app. split; [|lia].
      destruct Hr1 as [->| ->], Hr2 as [->| ->]; simpl; tauto. }
    destruct b2; exact Hfin.
Qed.

(** *** A network that never answers *)

Section NoAnswer.
Variable http_get : str -> Z -> http_outcome.
Hypothesis no_answer : forall url attempt,
  exists e, http_get url attempt = Failed e.

Lemma no_answer_failed domain :
  failed (fst (probe_http http_get domain)).
Proof.
  destruct (probe_http_shape http_get domain) as [H|[resp [e [[u [a Hr]] _]]]];
    [exact H|].
  destruct (no_answer u a) as [x Hx]. congruence.
Qed.

Lemma https_is_https (domain : str) :
  startswith (lit "https://") (lit "https://" ++ domain) = true.
Proof. reflexivity. Qed.

Lemma http_is_not_https (domain : str) :
  startswith (lit "https://") (lit "http://" ++ domain) = false.
Proof. reflexivity. Qed.

Lemma https_is_not_last (domain : str) :
  str_eqb (lit "https://" ++ domain) (lit "http://" ++ domain) = false.
Proof. reflexivity. Qed.

(** The attempts on the https URL end without a [return]. *)
Lemma no_answer_https domain st :
  fst (retry_loop http_get domain (lit "https://" ++ domain)
         (lit "http://" ++ domain) (range 1 (MAX_RETRIES + 1)) st) = false.
Proof.
  change (range 1 (MAX_RETRIES + 1)) with [1; 2]. destruct st as [r tr].
  cbn [retry_loop]. unfold probe_attempt.
  rewrite https_is_https, https_is_not_last.
  destruct (no_answer (lit "https://" ++ domain) 1) as [e1 ->].
  destruct (no_answer (lit "https://" ++ domain) 2) as [e2 ->].
  destruct e1, e2; reflexivity.
Qed.

(** The attempts on the http URL, the last one, leave an error. *)
Lemma no_answer_http domain st :
  error (fst (snd (retry_loop http_get domain (lit "http://" ++ domain)
                     (lit "http://" ++ domain)
                     (range 1 (MAX_RETRIES + 1)) st))) <> None.
Proof.
  change (range 1 (MAX_RETRIES + 1)) with [1; 2]. destruct st as [r tr].
  cbn [retry_loop]. unfold probe_attempt.
  rewrite http_is_not_https, str_eqb_refl.
  destruct (no_answer (lit "http://" ++ domain) 1) as [e1 ->].
  destruct (no_answer (lit "http://" ++ domain) 2) as [e2 ->].
  destruct e1, e2; discriminate.
Qed.

Lemma no_answer_error domain :
  error (fst (probe_http http_get domain)) <> None.
Proof.
  unfold probe_http. cbn [last url_loop].
  pose proof (no_answer_https domain (initial_result, [])) as H1.
  destruct (retry_loop http_get domain (lit "https://" ++ domain) _ _ _)
    as [b1 st1].
  cbn [fst] in H1. subst b1.
  pose proof (no_answer_http domain st1) as H2.
  destruct (retry_loop http_get domain (lit "http://" ++ domain) _ _ _)
    as [[|] st2]; exact H2.
Qed.

End NoAnswer.

End Probe.

(** Whatever the network does, the probe result keeps its size limits:
    the title has at most 200 characters, the stored body text at most
    5000 and the error description at most 200. *)
Theorem probe_result_bounds {R : PyRuntime} {T : PyText} {W : WebLib}
    (http_get : str -> Z -> http_outcome) (domain : str) :
  let r := fst (probe_http http_get domain) in
  len (or_empty (page_title r)) <= 200
  /\ len (body_text r) <= 5000
  /\ len (or_empty (error r)) <= 200.
Proof.
  intros r.
  destruct (probe_http_shape http_get domain)
    as [[e [He Hr]]|[resp [e [_ [He Hr]]]]]; fold r in Hr.
  - rewrite Hr. cbn. repeat split; try (vm_compute; discriminate).
    destruct e as [m|]; [exact He | vm_compute; discriminate].
  - destruct (on_response_fields domain resp e)
      as [_ [_ [Herr [_ [Ht [Hb _]]]]]].
    rewrite <- Hr in Ht, Hb, Herr. rewrite Herr.
    repeat split; try assumption.
    destruct e as [m|]; [exact He | vm_compute; discriminate].
Qed.

(** Whatever the network does, in the probe result the for-sale flag
    implies the parked flag, and a sale platform is recorded only with the
    for-sale flag and is one of the known platforms. *)
Theorem probe_flags_consistent {R : PyRuntime} {T : PyText} {W : WebLib}
    (http_get : str -> Z -> http_outcome) (domain : str) :
  let r := fst (probe_http http_get domain) in
  implb (is_for_sale r) (is_parked r) = true
  /\ forall p, sale_platform r = Some p ->
               is_for_sale r = true /\ In p SALE_PLATFORMS.
Proof.
  intros r.
  destruct (probe_http_shape http_get domain)
    as [[e [He Hr]]|[resp [e [_ [He Hr]]]]]; fold r in Hr.
  - rewrite Hr. cbn. split; [reflexivity | discriminate].
  - destruct (on_response_fields domain resp e)
      as [_ [_ [_ [_ [_ [_ [Hi [Hp _]]]]]]]].
    rewrite <- Hr in Hi, Hp. split; assumption.
Qed.



(** Page signals need a 200: when the status code of the probe result is
    anything else, or absent, the parked and for-sale flags are unset and
    there is no platform, no title and no body text, whatever the page
    says. *)
Theorem probe_signals_need_200 {R : PyRuntime} {T : PyText} {W : WebLib}
    (http_get : str -> Z -> http_outcome) (domain : str) :
  let r := fst (probe_http http_get domain) in
  http_status_code r <> Some 200 ->
  is_parked r = false /\ is_for_sale r = false
  /\ sale_platform r = None /\ page_title r = None /\ body_text r = [].
Proof.
  intros r Hn.
  destruct (probe_http_shape http_get domain)
    as [[e [He Hr]]|[resp [e [_ [He Hr]]]]]; fold r in Hr.
  - rewrite Hr. repeat split.
  - destruct (on_response_fields domain resp e)
      as [Hc [_ [_ [_ [_ [_ [_ [_ H]]]]]]]].
    rewrite <- Hr in Hc, H. apply H. intros E. apply Hn.
    rewrite Hc, E. reflexivity.
Qed.

Lemma probe_signals_need_200_witness :
  let r := fst (@probe_http ascii_runtime ascii_text plain_web
                  missing_network (lit "example.org")) in
  is_parked r = false /\ is_for_sale r = false
  /\ sale_platform r = None /\ page_title r = None /\ body_text r = [].
Proof.
  apply (@probe_signals_need_200 ascii_runtime ascii_text plain_web
           missing_network (lit "example.org")).
  vm_compute. discriminate.
Defined.

(** Whatever the network does, the probe asks the https URL once or
    twice and after that the http URL at most twice, nothing else: https
    comes first, there are at most four requests, and the pauses add up to
    at most three seconds. *)
Theorem probe_request_budget {R : PyRuntime} {T : PyText} {W : WebLib}
    (http_get : str -> Z -> http_outcome) (domain : str) :
  let trace := snd (probe_http http_get domain) in
  let https := lit "https://" ++ domain in
  let http := lit "http://" ++ domain in
  (exists m n : nat,
      (m = 1%nat \/ m = 2%nat) /\ (n <= 2)%nat
      /\ requests trace = repeat https m ++ repeat http n)
  /\ hd_error (requests trace) = Some https
  /\ len (requests trace) <= 4
  /\ (forall u, In u (requests trace) -> u = https \/ u = http)
  /\ 0 <= seconds_slept trace <= 3.
Proof.
  intros trace https http.
  destruct (probe_http_trace http_get domain) as [Hreq Hs].
  fold trace https http in Hreq, Hs.
  split; [|split; [|split; [|split; [|exact Hs]]]].
  - destruct Hreq as [E|[E|[E|[E|[E|E]]]]]; rewrite E.
    + exists 1%nat, 0%nat. repeat split; auto.
    + exists 2%nat, 0%nat. repeat split; auto.
    + exists 1%nat, 1%nat. repeat split; auto.
    + exists 1%nat, 2%nat. repeat split; auto.
    + exists 2%nat, 1%nat. repeat split; auto.
    + exists 2%nat, 2%nat. repeat split; auto.
  - destruct Hreq as [->|[->|[->|[->|[->| ->]]]]]; reflexivity.
  - destruct Hreq as [->|[->|[->|[->|[->| ->]]]]]; vm_compute; discriminate.
  - intros u.
    destruct Hreq as [->|[->|[->|[->|[->| ->]]]]]; simpl; intuition auto.
Qed.

(** When no request is answered, the probe result is the initial one
    with an error description of at most 200 characters: no status code,
    no URLs, no title, no flags. *)
Theorem probe_no_answer {R : PyRuntime} {T : PyText} {W : WebLib}
    (http_get : str -> Z -> http_outcome) (domain : str) :
  (forall url attempt, exists e, http_get url attempt = Failed e) ->
  exists msg,
    len msg <= 200
    /\ fst (probe_http http_get domain)
       = set_error (Some msg) initial_result.
Proof.
  intros Hno.
  destruct (no_answer_failed http_get Hno domain) as [e [He Hr]].
  pose proof (no_answer_error http_get Hno domain) as Herr.
  rewrite Hr in Herr. cbn in Herr.
  destruct e as [msg|]; [|contradiction].
  exists msg. split; [exact He | exact Hr].
Qed.

Lemma probe_no_answer_witness :
  exists msg,
    len msg <= 200
    /\ fst (@probe_http ascii_runtime ascii_text plain_web
              (dead_network ConnectionError) (lit "example.org"))
       = set_error (Some msg) initial_result.
Proof.
  apply (@probe_no_answer ascii_runtime ascii_text plain_web).
  intros url attempt. exists ConnectionError. reflexivity.
Defined.

(** ** What a verdict tells *)

(** Case analysis along the rules of the resolver; [tac] closes each
    case. *)
Ltac status_cases http_result whois_info now tac :=
  unfold determine_status, expiration_verdict, whois_expired,
    usable_expiration, whois_signal;
  destruct (in_set _ KNOWN_ACTIVE_DOMAINS); [solve [tac]|];
  destruct (truthy (redirect_url http_result)); [solve [tac]|];
  destruct (is_for_sale http_result); [solve [tac]|];
  destruct (is_parked http_result); [solve [tac]|];
  destruct (http_status_code http_result) as [c|];
  [destruct (in_range 200 400 c); [solve [tac]|] |];
  destruct (truthy (registrar whois_info));
  destruct (truthy (creation_date whois_info));
  destruct (truthy (expiration_date whois_info));
  destruct (nonempty (name_servers whois_info));
  cbn [andb orb negb];
  try destruct (fromisoformat _) as [[?|? ?]|];
  try match goal with
      | |- context [?x <? now] => destruct (x <? now) eqn:?
      end;
  solve [tac].

(** The verdict is always one of the six lifecycle states; [error] and
    [unknown] never come from the resolver. *)
Theorem verdict_is_one_of_six {R : PyRuntime} (now : Z)
    (http_result : ProbeResult) (whois_info : WhoisRecord) (domain : str) :
  In (determine_status now http_result whois_info domain)
     [ lit "active"; lit "parked"; lit "for_sale"; lit "redirect";
       lit "expired"; lit "available" ].
Proof.
  status_cases http_result whois_info now ltac:(simpl; tauto).
Qed.

(** Reading a verdict backwards: [redirect] means a redirect URL is set;
    [for_sale] means the for-sale flag is set; [parked] means the parked
    flag is set, or there was no HTTP status and WHOIS has a usable
    expiration date that is not in the past; [expired] means WHOIS has a
    usable expiration date in the past, or there was no HTTP status while
    WHOIS has some signal. *)
Theorem verdict_explained {R : PyRuntime} (now : Z)
    (http_result : ProbeResult) (whois_info : WhoisRecord) (domain : str) :
  let verdict := determine_status now http_result whois_info domain in
  (verdict = lit "redirect" -> truthy (redirect_url http_result) = true)
  /\ (verdict = lit "for_sale" -> is_for_sale http_result = true)
  /\ (verdict = lit "parked" ->
      is_parked http_result = true
      \/ (http_status_code http_result = None
          /\ exists e, usable_expiration whois_info = Some e
                       /\ (e <? now) = false))
  /\ (verdict = lit "expired" ->
      whois_expired now whois_info = true
      \/ (http_status_code http_result = None
          /\ whois_signal whois_info = true)).
Proof.
  cbv zeta.
  status_cases http_result whois_info now
    ltac:(cbn [andb orb negb];
          repeat split; intros Hv; try discriminate Hv; auto;
          try (right; split; [reflexivity|]; eauto)).
Qed.

(** [available] is the verdict exactly when nothing is known: the domain
    is not on the allow-list, no redirect, no flag, no HTTP status, and no
    registrar, creation date, expiration date or nameserver in WHOIS. *)
Theorem available_iff_nothing_known {R : PyRuntime} (now : Z)
    (http_result : ProbeResult) (whois_info : WhoisRecord) (domain : str) :
  determine_status now http_result whois_info domain = lit "available"
  <-> in_set domain KNOWN_ACTIVE_DOMAINS = false
      /\ truthy (redirect_url http_result) = false
      /\ is_for_sale http_result = false
      /\ is_parked http_result = false
      /\ http_status_code http_result = None
      /\ whois_signal whois_info = false.
Proof.
  status_cases http_result whois_info now
    ltac:(cbn [andb orb negb];
          split; [try discriminate; try tauto
                 | intros [? [? [? [? [? ?]]]]]; try discriminate; tauto]).
Qed.

(** An expiration date that does not parse, or that carries a time zone,
    is no date at all for the resolver: without HTTP status and flags the
    verdict is [expired], since the field still counts as a WHOIS
    signal. *)
Theorem unusable_expiration_is_expired {R : PyRuntime} (now : Z)
    (http_result : ProbeResult) (whois_info : WhoisRecord) (domain : str) :
  in_set domain KNOWN_ACTIVE_DOMAINS = false ->
  truthy (redirect_url http_result) = false ->
  is_for_sale http_result = false ->
  is_parked http_result = false ->
  http_status_code http_result = None ->
  truthy (expiration_date whois_info) = true ->
  (forall e, fromisoformat (or_empty (expiration_date whois_info))
             <> Some (Naive e)) ->
  determine_status now http_result whois_info domain = lit "expired".
Proof.
  intros Hd Hr Hs Hp Hc He Hbad.
  unfold determine_status, expiration_verdict.
  rewrite Hd, Hr, Hs, Hp, Hc, He. cbn [andb negb].
  rewrite !orb_true_r. cbn [andb orb negb].
  destruct (fromisoformat _) as [[e|e off]|]; try reflexivity.
  exfalso. exact (Hbad e eq_refl).
Qed.

Lemma unusable_expiration_is_expired_witness :
  @determine_status ascii_runtime (midnight 2026 11 3) initial_result
    garbled_whois (lit "example.org") = lit "expired".
Proof.
  apply (@unusable_expiration_is_expired ascii_runtime); try reflexivity.
  intros e. vm_compute. discriminate.
Defined.

(** ** More on scoring *)

Section ScoringMore.
Context {R : PyRuntime}.
Local Open Scope Q_scope.

Lemma py_round_le_floor_succ (x : Q) : (py_round x <= Qfloor x + 1)%Z.
Proof.
  unfold py_round. destruct (Qcompare _ _); [destruct (Z.even _)| |]; lia.
Qed.

(** Rounding is monotone. *)
Lemma py_round_mono (x y : Q) : x <= y -> (py_round x <= py_round y)%Z.
Proof.
  intros Hxy. pose proof (Qfloor_resp_le _ _ Hxy) as Hf.
  destruct (Z.eq_dec (Qfloor x) (Qfloor y)) as [E|N].
  - unfold py_round. rewrite <- E.
    destruct (Qcompare_spec (x - inject_Z (Qfloor x)) (1 # 2)) as [Hx|Hx|Hx];
      destruct (Qcompare_spec (y - inject_Z (Qfloor x)) (1 # 2)) as [Hy|Hy|Hy];
      try (destruct (Z.even (Qfloor x))); try lia; exfalso; lra.
  - pose proof (py_round_le_floor_succ x).
    pose proof (py_round_ge_floor y). lia.
Qed.

(** The score before the status rule does not depend on the status. *)
Lemma raw_score_status now domain ys w :
  exists t, forall status,
    snd (raw_score now domain ys status w) = status_block status t.
Proof.
  unfold raw_score. destruct (age_block now w (5, [])) as [age t0].
  eexists. intros status. reflexivity.
Qed.

Lemma status_block_bounds status t :
  fst (status_block (lit "active") t) <= fst (status_block status t)
  /\ fst (status_block status t) <= fst (status_block (lit "available") t).
Proof.
  change (fst (status_block (lit "active") t)) with (fst t + - (1 # 2)).
  change (fst (status_block (lit "available") t)) with (fst t + (1 # 2)).
  unfold status_block. break_ifs; simpl; lra.
Qed.

(** The WHOIS record enters the score through its usable creation date
    only. *)
Lemma age_block_usable now w1 w2 t :
  usable_creation w1 = usable_creation w2 ->
  age_block now w1 t = age_block now w2 t.
Proof.
  unfold usable_creation, age_block.
  destruct (truthy (creation_date w1)), (truthy (creation_date w2));
    try destruct (fromisoformat (or_empty (creation_date w1)))
      as [[c1|c1 o1]|];
    try destruct (fromisoformat (or_empty (creation_date w2)))
      as [[c2|c2 o2]|];
    intros E; try discriminate E; try reflexivity.
  injection E as ->. reflexivity.
Qed.

(** Every rule that fires leaves a reason; with no reason the score is
    untouched. *)
Let quiet (t : tally) : Prop := snd t = [] -> fst t == 5.

Lemma bump_quiet d r t : quiet (bump d r t).
Proof. intros E. apply app_eq_nil in E. destruct E; discriminate. Qed.

Lemma note_quiet r t : quiet (note r t).
Proof. intros E. apply app_eq_nil in E. destruct E; discriminate. Qed.

Lemma age_block_quiet now w t : quiet t -> quiet (snd (age_block now w t)).
Proof.
  intros Ht. unfold age_block. destruct (truthy _); [|exact Ht].
  destruct (fromisoformat _) as [[c|c off]|]; try exact Ht.
  cbv zeta. cbn [snd]. break_ifs; try exact Ht; apply bump_quiet.
Qed.

Lemma length_block_quiet n t : quiet t -> quiet (length_block n t).
Proof.
  intros Ht. unfold length_block. break_ifs; try exact Ht; apply bump_quiet.
Qed.

Lemma tld_block_quiet d t : quiet t -> quiet (tld_block d t).
Proof.
  intros Ht. unfold tld_block. break_ifs; try exact Ht; apply bump_quiet.
Qed.

Lemma popularity_block_quiet ys t : quiet t -> quiet (popularity_block ys t).
Proof.
  intros Ht. unfold popularity_block. cbv zeta.
  break_ifs; try exact Ht; apply bump_quiet.
Qed.

Lemma keyword_block_quiet n t : quiet t -> quiet (keyword_block n t).
Proof.
  intros Ht. unfold keyword_block. cbv zeta.
  break_ifs; try exact Ht; apply bump_quiet.
Qed.

Lemma brandability_block_quiet n t :
  quiet t -> quiet (brandability_block n t).
Proof.
  intros Ht. unfold brandability_block. cbv zeta.
  break_ifs; try exact Ht; apply bump_quiet.
Qed.

Lemma status_block_quiet s t : quiet t -> quiet (status_block s t).
Proof.
  intros Ht. unfold status_block.
  break_ifs; try exact Ht; try apply bump_quiet; apply note_quiet.
Qed.

Lemma raw_score_quiet now domain ys status w :
  snd (snd (raw_score now domain ys status w)) = [] ->
  fst (snd (raw_score now domain ys status w)) == 5.
Proof.
  unfold raw_score.
  assert (H0 : quiet (5, [])) by (intros _; reflexivity).
  pose proof (age_block_quiet now w (5, []) H0) as Ha.
  destruct (age_block now w (5, [])) as [age t0]. cbn [snd] in Ha.
  cbn [snd].
  apply status_block_quiet, brandability_block_quiet, keyword_block_quiet,
    popularity_block_quiet, tld_block_quiet, length_block_quiet, Ha.
Qed.

Lemma py_round_5 (x : Q) : x == 5 -> py_round x = 5%Z.
Proof.
  intros E.
  assert (H1 : (5 <= py_round x)%Z)
    by (apply (py_round_ge 5); change (inject_Z 5) with 5; lra).
  assert (H2 : (py_round x <= py_round 5)%Z)
    by (apply py_round_mono; lra).
  change (py_round 5) with 5%Z in H2. lia.
Qed.

End ScoringMore.

(** With everything else equal an [active] domain never scores above any
    other status, and no status scores above [available]. *)
Theorem score_ordered_by_status {R : PyRuntime} (now : Z) (domain : str)
    (years_popular : list Z) (status : str) (whois_info : WhoisRecord) :
  let score_for s :=
    score (score_domain now domain years_popular s whois_info) in
  score_for (lit "active") <= score_for status
  /\ score_for status <= score_for (lit "available").
Proof.
  cbv beta zeta. rewrite !score_domain_score.
  destruct (raw_score_status now domain years_popular whois_info) as [t Ht].
  rewrite !Ht.
  destruct (status_block_bounds status t) as [Hlo Hhi].
  apply py_round_mono in Hlo. apply py_round_mono in Hhi. lia.
Qed.

(** Of the WHOIS record the score reads a usable creation date and
    nothing else: records that agree on it, or that both lack one, get the
    same recommendation, whatever their registrar, expiration date or
    nameservers; a creation date that does not parse counts as absent. *)
Theorem score_reads_creation_date_only {R : PyRuntime} (now : Z)
    (domain : str) (years_popular : list Z) (status : str)
    (whois1 whois2 : WhoisRecord) :
  usable_creation whois1 = usable_creation whois2 ->
  score_domain now domain years_popular status whois1
  = score_domain now domain years_popular status whois2.
Proof.
  intros E. unfold score_domain, raw_score.
  rewrite (age_block_usable now whois1 whois2 _ E). reflexivity.
Qed.

Lemma score_reads_creation_date_only_witness :
  @score_domain ascii_runtime (midnight 2026 11 3) (lit "example.org")
    [2004] (lit "parked") garbled_whois
  = @score_domain ascii_runtime (midnight 2026 11 3) (lit "example.org")
      [2004] (lit "parked") empty_info.
Proof.
  apply (@score_reads_creation_date_only ascii_runtime). reflexivity.
Defined.

(** The fallback string of [_estimate_value] is for scores outside 1..10
    only, so a recommendation of [score_domain] never carries it: its
    value is the registration cost or an entry of the table. *)
Theorem value_fallback_unreachable {R : PyRuntime} (now : Z) (domain : str)
    (years_popular : list Z) (status : str) (whois_info : WhoisRecord) :
  (forall s age n,
      status <> lit "available" -> s < 1 \/ 10 < s ->
      _estimate_value s age n status = lit "$1,000-$5,000")
  /\ In (estimated_value
           (score_domain now domain years_popular status whois_info))
        (lit "$10-$15 (registration cost)" :: map snd ranges).
Proof.
  split.
  - intros s age n Hne Hs. apply str_eqb_neq in Hne.
    unfold _estimate_value. rewrite Hne. unfold ranges, dict_get.
    repeat match goal with
           | |- context [Z.eqb ?k s] =>
               destruct (Z.eqb_spec k s); [lia|]
           end.
    reflexivity.
  - pose proof (score_domain_score now domain years_popular status whois_info)
      as Hs.
    unfold score_domain in *.
    destruct (raw_score now domain years_popular status whois_info)
      as [[age n] [s rs]].
    cbn [score estimated_value fst snd] in *.
    unfold _estimate_value. destruct (str_eqb status _); [left; reflexivity|].
    right.
    set (k := Z.max 1 (Z.min 10 (py_round s))).
    assert (Hk : 1 <= k <= 10) by (unfold k; lia).
    assert (Hcases : k = 1 \/ k = 2 \/ k = 3 \/ k = 4 \/ k = 5 \/ k = 6
                     \/ k = 7 \/ k = 8 \/ k = 9 \/ k = 10) by lia.
    clearbody k.
    destruct Hcases as [->|[->|[->|[->|[->|[->|[->|[->|[->| ->]]]]]]]]];
      simpl; tauto.
Qed.

(** When no rule fires the score is exactly 5 and the reason is
    "Standard domain". *)
Theorem no_rule_standard_domain {R : PyRuntime} (now : Z) (domain : str)
    (years_popular : list Z) (status : str) (whois_info : WhoisRecord) :
  snd (snd (raw_score now domain years_popular status whois_info)) = [] ->
  let r := score_domain now domain years_popular status whois_info in
  score r = 5 /\ reason r = lit "Standard domain".
Proof.
  intros Hq.
  pose proof (raw_score_quiet now domain years_popular status whois_info Hq)
    as H5.
  unfold score_domain.
  destruct (raw_score now domain years_popular status whois_info)
    as [[age n] [s rs]].
  cbn [fst snd] in *. subst rs. cbn [score reason nonempty app join].
  rewrite (py_round_5 s H5). split; reflexivity.
Qed.

Lemma no_rule_standard_domain_witness :
  let r := @score_domain ascii_runtime (midnight 2026 11 3) plain_domain
             [2004] (lit "parked") empty_info in
  score r = 5 /\ reason r = lit "Standard domain".
Proof.
  apply (@no_rule_standard_domain ascii_runtime). vm_compute. reflexivity.
Defined.

(** ** The check of one domain *)

Section Check.
Context {R : PyRuntime} {T : PyText} {W : WebLib}.


(** A lookup that fails or comes back empty leaves every field absent. *)
Lemma lookup_whois_nothing whois_query domain :
  (exists e, whois_query domain = Raise e)
  \/ whois_query domain = Return None
  \/ whois_query domain = Return (Some []) ->
  lookup_whois whois_query domain = Return empty_info.
Proof.
  intros H. unfold lookup_whois, try_except, lookup_whois_body, bind, call.
  destruct H as [[[msg|msg] ->]|[-> | ->]]; reflexivity.
Qed.

Lemma estimated_value_available now domain ys w :
  estimated_value (score_domain now domain ys (lit "available") w)
  = lit "$10-$15 (registration cost)".
Proof.
  unfold score_domain.
  destruct (raw_score now domain ys (lit "available") w) as [[age n] [s rs]].
  reflexivity.
Qed.

End Check.


(** A domain that no request reaches and for which the WHOIS lookup fails
    or finds nothing is reported as [available], at the registration cost,
    unless it is on the allow-list; a WHOIS outage is read like a missing
    registration. *)
Theorem check_domain_nothing_known {R : PyRuntime} {T : PyText} {W : WebLib}
    (http_get : str -> Z -> http_outcome)
    (whois_query : str -> outcome (option whois_entry))
    (now_status now_score : Z) (checked_at : str)
    (domain : str) (years_popular : list Z) :
  in_set domain KNOWN_ACTIVE_DOMAINS = false ->
  (forall url attempt, exists e, http_get url attempt = Failed e) ->
  ((exists e, whois_query domain = Raise e)
   \/ whois_query domain = Return None
   \/ whois_query domain = Return (Some [])) ->
  exists res,
    check_domain http_get whois_query now_status now_score checked_at
      domain years_popular = Return res
    /\ cr_status res = lit "available"
    /\ estimated_value (cr_recommendation res)
       = lit "$10-$15 (registration cost)"
    /\ cr_http_status_code res = None
    /\ cr_whois res = empty_info.
Proof.
  intros Hd Hno Hwhois. unfold check_domain.
  rewrite (lookup_whois_nothing whois_query domain Hwhois).
  destruct (no_answer_failed http_get Hno domain) as [e [_ Hr]].
  rewrite Hr.
  assert (Hstatus : determine_status now_status
                      (set_error e initial_result) empty_info domain
                    = lit "available")
    by (unfold determine_status; rewrite Hd; reflexivity).
  eexists. split; [destruct (needs_whois _); reflexivity|].
  cbn [cr_status cr_recommendation cr_http_status_code cr_whois].
  rewrite Hstatus, estimated_value_available. repeat split.
Qed.

Lemma check_domain_nothing_known_witness :
  exists res,
    @check_domain ascii_runtime ascii_text plain_web
      (dead_network RequestTimeout) whois_down
      (midnight 2026 11 3) (midnight 2026 11 3)
      (lit "2026-11-03T00:00:00+00:00") (lit "example.org") [2004]
    = Return res
    /\ cr_status res = lit "available"
    /\ estimated_value (cr_recommendation res)
       = lit "$10-$15 (registration cost)"
    /\ cr_http_status_code res = None
    /\ cr_whois res = empty_info.
Proof.
  apply (@check_domain_nothing_known ascii_runtime ascii_text plain_web).
  - reflexivity.
  - intros url attempt. exists RequestTimeout. reflexivity.
  - left. eexists. reflexivity.
Defined.



(** ** The report *)

Lemma summary_get_set (status status' : str) (n : Z)
    (summary : list (str * Z)) :
  summary_get (summary_set status n summary) status'
  = if str_eqb status status' then n else summary_get summary status'.
Proof.
  induction summary as [|[k m] rest IH]; simpl.
  - destruct (str_eqb_spec status status'); reflexivity.
  - destruct (str_eqb_spec k status) as [->|Hk]; simpl.
    + destruct (str_eqb_spec status status'); reflexivity.
    + rewrite IH.
      destruct (str_eqb_spec k status') as [->|Hk'];
        destruct (str_eqb_spec status status'); try reflexivity.
      subst. contradiction.
Qed.

Lemma summary_total_incr (status : str) (summary : list (str * Z)) :
  summary_total
    (summary_set status (summary_get summary status + 1) summary)
  = summary_total summary + 1.
Proof.
  unfold summary_total.
  induction summary as [|[k m] rest IH]; simpl; [lia|].
  destruct (str_eqb k status); simpl; lia.
Qed.

(** The loop of [_build_summary] from any starting dictionary. *)
Lemma build_summary_from (results : list CheckResult)
    (summary : list (str * Z)) :
  let final :=
    fold_left
      (fun summary r =>
         summary_set (cr_status r)
                     (summary_get summary (cr_status r) + 1) summary)
      results summary in
  summary_total final = summary_total summary + len results
  /\ forall status,
       summary_get final status
       = summary_get summary status
         + len (filter (fun r => str_eqb (cr_status r) status) results).
Proof.
  revert summary. unfold len.
  induction results as [|r results IH]; intros summary; cbn [fold_left].
  - simpl. split; [lia | intros; lia].
  - destruct (IH (summary_set (cr_status r)
                    (summary_get summary (cr_status r) + 1) summary))
      as [Ht Hc].
    cbv zeta in *. split.
    + rewrite Ht, summary_total_incr. cbn [length]. lia.
    + intros status. rewrite Hc, summary_get_set. cbn [filter].
      destruct (str_eqb_spec (cr_status r) status) as [->|]; cbn [length];
        lia.
Qed.

(** The summary counts every result once: its counts add up to the number
    of results, and the count of each status is the number of results with
    that status, also for a status outside the eight initial keys. *)
Theorem summary_counts (results : list CheckResult) :
  summary_total (_build_summary results) = len results
  /\ forall status,
       summary_get (_build_summary results) status
       = len (filter (fun r => str_eqb (cr_status r) status) results).
Proof.
  destruct (build_summary_from results initial_summary) as [Ht Hc].
  unfold _build_summary. split.
  - rewrite Ht. reflexivity.
  - intros status. rewrite Hc.
    assert (H0 : summary_get initial_summary status = 0).
    { unfold initial_summary. simpl. break_ifs; reflexivity. }
    rewrite H0. lia.
Qed.

Lemma key_leb_total (a b : Z * str) :
  key_leb a b = true \/ key_leb b a = true.
Proof.
  unfold key_leb. destruct a as [x s], b as [y t]. cbn [fst snd].
  destruct (Z.ltb_spec x y), (Z.ltb_spec y x); auto; try lia.
  assert (x = y) by lia. subst. rewrite Z.eqb_refl. apply str_leb_total.
Qed.

Lemma key_leb_trans (a b c : Z * str) :
  key_leb a b = true -> key_leb b c = true -> key_leb a c = true.
Proof.
  unfold key_leb. destruct a as [x s], b as [y t], c as [z u].
  cbn [fst snd].
  destruct (Z.ltb_spec x y), (Z.ltb_spec y z), (Z.ltb_spec x z);
    try reflexivity; try lia;
    destruct (Z.eqb_spec x y), (Z.eqb_spec y z), (Z.eqb_spec x z);
    try discriminate; try lia.
  apply str_leb_trans.
Qed.

Lemma key_leb_antisym (a b : Z * str) :
  key_leb a b = true -> key_leb b a = true -> a = b.
Proof.
  unfold key_leb. destruct a as [x s], b as [y t]. cbn [fst snd].
  destruct (Z.ltb_spec x y), (Z.ltb_spec y x); try lia;
    destruct (Z.eqb_spec x y), (Z.eqb_spec y x);
    try discriminate; try lia.
  intros H1 H2. subst. f_equal. apply str_leb_antisym; assumption.
Qed.

(** Two sorted lists with the same elements are the same list when the
    order tells the elements apart. *)
Lemma sorted_unique {A} (le : A -> A -> Prop) (l1 l2 : list A) :
  (forall a b, In a l1 -> In b l1 -> le a b -> le b a -> a = b) ->
  StronglySorted le l1 -> StronglySorted le l2 -> Permutation l1 l2 ->
  l1 = l2.
Proof.
  revert l2. induction l1 as [|a l1 IH]; intros l2 Hanti Hs1 Hs2 Hp.
  - apply Permutation_nil in Hp. congruence.
  - destruct l2 as [|b l2];
      [apply Permutation_sym, Permutation_nil in Hp; discriminate|].
    inversion Hs1 as [|? ? Hs1' Hall1]; subst.
    inversion Hs2 as [|? ? Hs2' Hall2]; subst.
    rewrite Forall_forall in Hall1, Hall2.
    assert (Hab : a = b).
    { assert (Ha : In a (b :: l2))
        by (eapply Permutation_in; [exact Hp | left; reflexivity]).
      assert (Hb : In b (a :: l1))
        by (eapply Permutation_in;
            [apply Permutation_sym, Hp | left; reflexivity]).
      destruct Ha as [E|Ha]; [congruence|].
      destruct Hb as [E|Hb]; [congruence|].
      apply Hanti; [left; reflexivity | right; exact Hb
                    | apply Hall1, Hb | apply Hall2, Ha]. }
    subst b. f_equal. apply Permutation_cons_inv in Hp.
    apply IH; try assumption.
    intros x y Hx Hy. apply Hanti; right; assumption.
Qed.

(** The report lists every result once, by descending score and, among
    equal scores, by ascending domain name. *)
Theorem report_sorted (results : list CheckResult) :
  Permutation results (sort_results results)
  /\ StronglySorted
       (fun a b =>
          score (cr_recommendation b) < score (cr_recommendation a)
          \/ (score (cr_recommendation a) = score (cr_recommendation b)
              /\ str_leb (cr_domain a) (cr_domain b) = true))
       (sort_results results).
Proof.
  unfold sort_results. split; [apply sorted_by_perm|].
  eapply StronglySorted_weaken;
    [|apply sorted_by_sorted;
      [intros a b; apply key_leb_total
      |intros a b c; apply key_leb_trans]].
  intros a b. unfold key_leb, sort_key. cbn [fst snd].
  destruct (Z.ltb_spec (- score (cr_recommendation a))
                       (- score (cr_recommendation b)));
    [intros _; left; lia|].
  destruct (Z.eqb_spec (- score (cr_recommendation a))
                       (- score (cr_recommendation b)));
    [intros H'; right; split; [lia | exact H'] | discriminate].
Qed.

(** The order of the report does not depend on the order in which the
    workers hand in their results, as long as no domain occurs twice. *)
Theorem report_order_independent (results1 results2 : list CheckResult) :
  Permutation results1 results2 ->
  NoDup (map cr_domain results1) ->
  sort_results results1 = sort_results results2.
Proof.
  intros Hp Hnd. unfold sort_results.
  set (leb := fun a b => key_leb (sort_key a) (sort_key b)).
  assert (Htot : forall a b, leb a b = true \/ leb b a = true)
    by (intros; apply key_leb_total).
  assert (Htr : forall a b c, leb a b = true -> leb b c = true ->
                              leb a c = true)
    by (intros a b c; apply key_leb_trans).
  apply (sorted_unique (fun a b => leb a b = true)).
  - intros a b Ha Hb Hab Hba.
    apply (proj1 (sorted_by_In leb _ _)) in Ha.
    apply (proj1 (sorted_by_In leb _ _)) in Hb.
    pose proof (key_leb_antisym _ _ Hab Hba) as Hk.
    assert (Hdom : cr_domain a = cr_domain b)
      by (unfold sort_key in Hk; congruence).
    clear - Ha Hb Hdom Hnd.
    induction results1 as [|r rs IH]; [contradiction|].
    cbn [map] in Hnd. inversion Hnd as [|? ? Hnotin Hnd']; subst.
    destruct Ha as [->|Ha], Hb as [->|Hb]; [reflexivity | | |auto].
    + exfalso. apply Hnotin. rewrite Hdom. apply in_map, Hb.
    + exfalso. apply Hnotin. rewrite <- Hdom. apply in_map, Ha.
  - apply sorted_by_sorted; assumption.
  - apply sorted_by_sorted; assumption.
  - eapply perm_trans; [apply Permutation_sym, sorted_by_perm|].
    eapply perm_trans; [exact Hp | apply sorted_by_perm].
Qed.

Lemma report_order_independent_witness :
  sort_results sample_results = sort_results (rev sample_results).
Proof.
  apply report_order_independent.
  - apply Permutation_rev.
  - repeat constructor; simpl; intuition discriminate.
Defined.

(** ** The command line *)

(** [main] starts the checker with between 1 and 50 workers and with no
    year or a year of the table; with a year that is not in the table it
    leaves with exit code 1 instead. *)
Theorem main_checks_arguments (DOMAINS_BY_YEAR : list (Z * list str))
    (args : Args) :
  match main DOMAINS_BY_YEAR args with
  | Exit code =>
      code = 1
      /\ exists y, arg_year args = Some y
                   /\ ~ In y (map fst DOMAINS_BY_YEAR)
  | RunChecker filter_year max_workers output_file quick =>
      1 <= max_workers <= 50
      /\ (arg_workers args < 1 -> max_workers = 1)
      /\ (50 < arg_workers args -> max_workers = 50)
      /\ (1 <= arg_workers args <= 50 -> max_workers = arg_workers args)
      /\ filter_year = arg_year args
      /\ forall y, filter_year = Some y -> In y (map fst DOMAINS_BY_YEAR)
  end.
Proof.
  unfold main. destruct (arg_year args) as [y|]; cbn [negb].
  - destruct (existsb (Z.eqb y) (map fst DOMAINS_BY_YEAR)) eqn:E;
      cbn [negb].
    + repeat split; try lia. intros y' Hy. injection Hy as <-.
      apply existsb_exists in E. destruct E as [k [Hin Hk]].
      apply Z.eqb_eq in Hk. subst. exact Hin.
    + split; [reflexivity|]. exists y. split; [reflexivity|].
      intros Hin. assert (Ht : existsb (Z.eqb y) (map fst DOMAINS_BY_YEAR)
                                = true)
        by (apply existsb_exists; exists y; split;
            [exact Hin | apply Z.eqb_refl]).
      congruence.
  - repeat split; try lia. discriminate.
Qed.

(** ** More on content signals *)

Lemma existsb_false_filter {A} (f : A -> bool) (l : list A) :
  existsb f l = false -> filter f l = [].
Proof.
  induction l as [|x l IH]; simpl; [reflexivity|].
  destruct (f x); [discriminate | exact IH].
Qed.

Lemma existsb_false_find {A} (f : A -> bool) (l : list A) :
  existsb f l = false -> find f l = None.
Proof.
  induction l as [|x l IH]; simpl; [reflexivity|].
  destruct (f x); [discriminate | exact IH].
Qed.

(** The analyser writes the parked flag, the for-sale flag and the sale
    platform and leaves the other six fields alone; it sets flags and
    never clears one. *)
Theorem analyser_writes_flags_only {R : PyRuntime}
    (result : ProbeResult) (body raw : str) :
  let r' := _analyse_page_content result body raw in
  (http_status_code r' = http_status_code result
   /\ page_title r' = page_title result
   /\ body_text r' = body_text result
   /\ redirect_url r' = redirect_url result
   /\ final_url r' = final_url result
   /\ error r' = error result)
  /\ (is_parked result = true -> is_parked r' = true)
  /\ (is_for_sale result = true -> is_for_sale r' = true).
Proof.
  intros r'. subst r'. split.
  - apply analyse_frame.
  - apply analyse_monotone.
Qed.

(** An explicit sale phrase in the body sets the for-sale flag and with
    it the parked flag, on thin and on large pages alike, unless the page
    passes as a real site. *)
Theorem sale_phrase_marks_for_sale {R : PyRuntime}
    (result : ProbeResult) (body raw : str) :
  is_real_site result body = false ->
  any_in sale_phrases body = true ->
  let r' := _analyse_page_content result body raw in
  is_for_sale r' = true /\ is_parked r' = true.
Proof.
  intros Hreal Hsale. unfold _analyse_page_content. cbv zeta.
  rewrite Hreal.
  match goal with
  | |- context [if truthy (find ?f SALE_PLATFORMS) && ?thin
                then ?a else ?b] =>
      generalize (if truthy (find f SALE_PLATFORMS) && thin then a else b)
  end.
  intros r2. rewrite Hsale. cbn [is_for_sale set_is_for_sale].
  break_ifs; split; reflexivity.
Qed.

Lemma sale_phrase_marks_for_sale_witness :
  let r' := @_analyse_page_content ascii_runtime offer_result
              (body_text offer_result) (body_text offer_result) in
  is_for_sale r' = true /\ is_parked r' = true.
Proof.
  apply (@sale_phrase_marks_for_sale ascii_runtime); reflexivity.
Defined.

(** No signal, no flag: when the body holds no parking phrase, no sale
    phrase and no platform name, and the lowercased title none of the four
    words, the analyser returns a fresh result untouched. *)
Theorem no_signal_no_flag {R : PyRuntime}
    (code : option Z) (title : option str) (text : str)
    (redirect final err : option str) (body raw : str) :
  let result :=
    {| http_status_code := code; page_title := title; body_text := text;
       redirect_url := redirect; is_parked := false; is_for_sale := false;
       sale_platform := None; final_url := final; error := err |} in
  any_in PARKED_KEYWORDS body = false ->
  any_in sale_phrases body = false ->
  any_in SALE_PLATFORMS body = false ->
  any_in title_words (lower (or_empty title)) = false ->
  _analyse_page_content result body raw = result.
Proof.
  intros result Hk Hs Hp Ht. unfold _analyse_page_content. cbv zeta.
  destruct (is_real_site result body); [reflexivity|].
  unfold any_in in Hk, Hp.
  rewrite (existsb_false_filter _ _ Hk), (existsb_false_find _ _ Hp), Hs.
  change (len (@nil str)) with 0. cbn [Z.leb Z.compare orb andb truthy].
  cbn [is_for_sale result page_title or_empty].
  assert (Ht' : any_in [lit "parked"; lit "for sale"; lit "domain";
                        lit "coming soon"] (lower (or_empty title)) = false).
  { unfold any_in, title_words in *. cbn [existsb] in *.
    destruct (contains (lit "domain") _), (contains (lit "parked") _),
      (contains (lit "for sale") _), (contains (lit "coming soon") _);
      try discriminate Ht; reflexivity. }
  rewrite Ht'. destruct (_ && _); reflexivity.
Qed.

Lemma no_signal_no_flag_witness :
  @_analyse_page_content ascii_runtime quiet_result
    (body_text quiet_result) (body_text quiet_result) = quiet_result.
Proof.
  apply (@no_signal_no_flag ascii_runtime); reflexivity.
Defined.
